(** * Hospital Management API: a shallow embedding of [main.py] and [schemas.py]

    The development follows the layout of the service:
    - Python values and insertion-ordered dictionaries;
    - [serialize_doc], the transport serialisation of a stored document;
    - the process state (the [db] handle, the [ObjectId] binding) and the
      document store behind it, with a small state-and-exception monad;
    - the record schemas and their validation;
    - the route handlers and the validation boundary in front of them;
    - the properties of the service. *)

From Stdlib Require Import ZArith NArith List String Ascii Bool Lia DecimalString.
From stdpp Require Import base gmap strings.
Import ListNotations.

Local Open Scope string_scope.
Local Open Scope list_scope.

(* ===================================================================== *)
(** ** Python values                                                      *)
(* ===================================================================== *)

(** [datetime.datetime]: the calendar fields and, for an aware value, the UTC
    offset in whole minutes. *)
Record datetime : Type := mk_datetime {
  dt_year : Z;
  dt_month : Z;
  dt_day : Z;
  dt_hour : Z;
  dt_minute : Z;
  dt_second : Z;
  dt_microsecond : Z;
  dt_utcoffset : option Z
}.

(** [bson.ObjectId]: twelve bytes, kept as the 24 lower-case hexadecimal digits
    that [str] prints; two identifiers are equal when their bytes are. *)
Record bson_oid : Type := mk_oid { oid_hex : string }.

(** The values a field of a document holds: the types of the three record
    kinds and of the store, and [VOther] for a value of any other type (a
    list, a nested document), kept whole under its printed form. *)
Inductive value : Type :=
| VNone
| VBool (b : bool)
| VInt (z : Z)
| VStr (s : string)
| VDatetime (d : datetime)
| VObjectId (o : bson_oid)
| VOther (printed : string).

(** [isinstance(v, datetime)] *)
Definition is_datetime (v : value) : bool :=
  match v with VDatetime _ => true | _ => false end.

(** The last decimal digit of [n] as a character. *)
Definition dec_digit (n : Z) : ascii := ascii_of_nat (48 + Z.to_nat (n mod 10)).

(** [n] printed on exactly [w] decimal digits, zero padded ([%0wd]). *)
Fixpoint zpad (w : nat) (n : Z) : string :=
  match w with
  | O => EmptyString
  | S w' => zpad w' (n / 10) +:+ String (dec_digit n) EmptyString
  end.

(** The [+HH:MM] suffix of an aware datetime, empty for a naive one. *)
Definition format_utcoffset (off : option Z) : string :=
  match off with
  | None => EmptyString
  | Some m =>
      (if (m <? 0)%Z then "-" else "+")
        +:+ zpad 2 (Z.abs m / 60) +:+ ":" +:+ zpad 2 (Z.abs m mod 60)
  end.

(** [datetime.isoformat(sep)]: the fraction is printed only when the
    microsecond field is not zero. *)
Definition isoformat_sep (sep : string) (d : datetime) : string :=
  zpad 4 (dt_year d) +:+ "-" +:+ zpad 2 (dt_month d) +:+ "-" +:+ zpad 2 (dt_day d)
    +:+ sep
    +:+ zpad 2 (dt_hour d) +:+ ":" +:+ zpad 2 (dt_minute d) +:+ ":" +:+ zpad 2 (dt_second d)
    +:+ (if (dt_microsecond d =? 0)%Z then EmptyString
         else "." +:+ zpad 6 (dt_microsecond d))
    +:+ format_utcoffset (dt_utcoffset d).

(** [v.isoformat()] *)
Definition isoformat (d : datetime) : string := isoformat_sep "T" d.

(** [str(v)] *)
Definition py_str (v : value) : string :=
  match v with
  | VNone => "None"
  | VBool true => "True"
  | VBool false => "False"
  | VInt z => NilZero.string_of_int (Z.to_int z)
  | VStr s => s
  | VDatetime d => isoformat_sep " " d
  | VObjectId o => oid_hex o
  | VOther printed => printed
  end.

(* ===================================================================== *)
(** ** Dictionaries                                                       *)
(* ===================================================================== *)

(** A Python [dict] with string keys: the items in insertion order.  A
    dictionary holds each key once ([dict_wf]). *)
Definition dict (V : Type) : Type := list (string * V).

Definition dict_keys {V : Type} (d : dict V) : list string := map fst d.

Definition dict_wf {V : Type} (d : dict V) : Prop := List.NoDup (dict_keys d).

(** [d.get(k)] *)
Fixpoint dict_get {V : Type} (k : string) (d : dict V) : option V :=
  match d with
  | [] => None
  | (k', v) :: rest => if String.eqb k k' then Some v else dict_get k rest
  end.

(** [d[k] = v]: a key already present keeps its place and takes the new value,
    a new key goes to the end. *)
Fixpoint dict_set {V : Type} (k : string) (v : V) (d : dict V) : dict V :=
  match d with
  | [] => [(k, v)]
  | (k', v') :: rest =>
      if String.eqb k k' then (k, v) :: rest else (k', v') :: dict_set k v rest
  end.

(** [d.update(items)] *)
Definition dict_update {V : Type} (items : list (string * V)) (d : dict V) : dict V :=
  fold_left (fun out kv => dict_set (fst kv) (snd kv) out) items d.

(** A stored document, and a record on its way to the client. *)
Definition document : Type := dict value.

(* ===================================================================== *)
(** ** [serialize_doc]                                                    *)
(* ===================================================================== *)

(** One turn of the loop [for k, v in doc.items()]. *)
Definition serialize_item (out : document) (kv : string * value) : document :=
  let (k, v) := kv in
  if String.eqb k "_id" then dict_set "id" (VStr (py_str v)) out
  else match v with
       | VDatetime d => dict_set k (VStr (isoformat d)) out
       | _ => dict_set k v out
       end.

Definition serialize_doc (doc : document) : document :=
  fold_left serialize_item doc [].

(** What the serialisation is described to do to a value outside the
    identifier field: a datetime becomes its ISO text, anything else is kept. *)
Definition transport_value (v : value) : value :=
  match v with
  | VDatetime d => VStr (isoformat d)
  | _ => v
  end.

Definition transport_key (k : string) : string :=
  if String.eqb k "_id" then "id" else k.

(** What the serialisation is described to do to one field: the identifier
    field [_id] becomes [id] with the string form of its value, every other
    field keeps its key and has its value made fit for transport. *)
Definition transport_field (kv : string * value) : string * value :=
  let (k, v) := kv in
  if String.eqb k "_id" then ("id", VStr (py_str v))
  else (k, transport_value v).

(** A dictionary on which the serialisation has nothing to do: no [_id] key
    and no datetime value. *)
Definition transport_ready (out : document) : Prop :=
  dict_wf out
  /\ ~ In "_id" (dict_keys out)
  /\ Forall (fun kv => is_datetime (snd kv) = false) out.

(** A record as the models dump it: distinct field names, none of them [_id]
    or [id], and no datetime among the values. *)
Definition plain_record (record : document) : Prop :=
  dict_wf record
  /\ ~ In "_id" (dict_keys record)
  /\ ~ In "id" (dict_keys record)
  /\ Forall (fun kv => is_datetime (snd kv) = false) record.

(* ===================================================================== *)
(** ** Exceptions and results                                             *)
(* ===================================================================== *)

(** The exceptions that travel through the handlers. *)
Inductive exn : Type :=
| HTTPException (status_code : Z) (detail : string)
| InvalidId (oid : string)
| PyMongoError (msg : string)
| TypeError (msg : string)
| StoreUnavailable
| WriteFailure (msg : string)
| ReadFailure (msg : string).

(** [isinstance(e, Exception)], the test of an [except Exception] clause.
    [fastapi.HTTPException] derives from [Exception] like the others. *)
Definition is_Exception (e : exn) : bool :=
  match e with
  | HTTPException _ _ => true
  | InvalidId _ => true
  | PyMongoError _ => true
  | TypeError _ => true
  | StoreUnavailable => true
  | WriteFailure _ => true
  | ReadFailure _ => true
  end.

(** [str(e)] *)
Definition exn_str (e : exn) : string :=
  match e with
  | HTTPException code detail => py_str (VInt code) +:+ ": " +:+ detail
  | InvalidId oid => oid +:+ " is not a valid ObjectId"
  | PyMongoError msg => msg
  | TypeError msg => msg
  | StoreUnavailable => "Database not available"
  | WriteFailure msg => msg
  | ReadFailure msg => msg
  end.

Inductive Result (A : Type) : Type :=
| Ok (a : A)
| Raise (e : exn).

Arguments Ok {A} a.
Arguments Raise {A} e.

(* ===================================================================== *)
(** ** [bson.ObjectId]                                                    *)
(* ===================================================================== *)

Definition is_hex_digit (c : ascii) : bool :=
  let n := nat_of_ascii c in
  ((48 <=? n)%nat && (n <=? 57)%nat)
  || ((97 <=? n)%nat && (n <=? 102)%nat)
  || ((65 <=? n)%nat && (n <=? 70)%nat).

Definition hex_lower (c : ascii) : ascii :=
  let n := nat_of_ascii c in
  if ((65 <=? n)%nat && (n <=? 70)%nat) then ascii_of_nat (n + 32) else c.

Fixpoint string_map (f : ascii -> ascii) (s : string) : string :=
  match s with
  | EmptyString => EmptyString
  | String c rest => String (f c) (string_map f rest)
  end.

(** [ObjectId(s)] for a string [s]: 24 hexadecimal digits, anything else
    raises [InvalidId]. *)
Definition bson_ObjectId (s : string) : Result bson_oid :=
  if ((String.length s =? 24)%nat && forallb is_hex_digit (list_ascii_of_string s))
  then Ok (mk_oid (string_map hex_lower s))
  else Raise (InvalidId s).

Definition hex_digit (n : N) : ascii :=
  nth (N.to_nat (n mod 16)) (list_ascii_of_string "0123456789abcdef") "0"%char.

Fixpoint hex_pad (w : nat) (n : N) : string :=
  match w with
  | O => EmptyString
  | S w' => hex_pad w' (n / 16) +:+ String (hex_digit n) EmptyString
  end.

(** The identifier the store generates from its counter. *)
Definition new_oid (counter : N) : bson_oid := mk_oid (hex_pad 24 counter).

(* ===================================================================== *)
(** ** The process state and the document store                           *)
(* ===================================================================== *)

#[global] Instance datetime_eq_dec : EqDecision datetime.
Proof. solve_decision. Defined.

#[global] Instance bson_oid_eq_dec : EqDecision bson_oid.
Proof. solve_decision. Defined.

#[global] Instance value_eq_dec : EqDecision value.
Proof. solve_decision. Defined.

(** The methods of a pymongo collection that the service calls. *)
Inductive store_method : Type :=
| m_find_one
| m_count_documents
| m_insert_one
| m_find.

(** A call that reached the store, with its arguments. *)
Inductive store_op : Type :=
| OpFindOne (coll : string) (filter : document)
| OpCountDocuments (coll : string) (filter : document)
| OpInsertOne (coll : string) (doc : document)
| OpFind (coll : string) (filter : document) (limit : Z).

(** The database behind the handle [db]: the documents of each collection in
    insertion order, the counter of the identifier generator, and for each
    method and collection whether the call fails, and with which message. *)
Record Database : Type := mk_Database {
  collections : gmap string (list document);
  next_oid : N;
  failing : store_method -> string -> option string
}.

(** The module-level state of [main.py] together with the calls made to the
    store so far: [db] is [None] when no connection was established, and
    [ObjectId] is [None] when [from bson import ObjectId] failed. *)
Record World : Type := mk_World {
  db : option Database;
  ObjectId : option (string -> Result bson_oid);
  trace : list store_op
}.

(** [db[name]]: a collection that was never written to is empty. *)
Definition coll_docs (d : Database) (name : string) : list document :=
  default [] (collections d !! name).

Definition world_docs (w : World) (name : string) : list document :=
  match db w with
  | Some d => coll_docs d name
  | None => []
  end.

Definition log_op (op : store_op) (w : World) : World :=
  {| db := db w; ObjectId := ObjectId w; trace := trace w ++ [op] |}.

(** State and exceptions: a computation takes the world and returns a value or
    a raised exception, with the world it leaves behind. *)
Definition M (A : Type) : Type := World -> Result A * World.

Definition ret {A : Type} (a : A) : M A := fun w => (Ok a, w).

Definition raise {A : Type} (e : exn) : M A := fun w => (Raise e, w).

Definition bind {A B : Type} (c : M A) (k : A -> M B) : M B :=
  fun w =>
    match c w with
    | (Ok a, w') => k a w'
    | (Raise e, w') => (Raise e, w')
    end.

(** [try: body except Exception: handler] *)
Definition try_except {A : Type} (body : M A) (handler : exn -> M A) : M A :=
  fun w =>
    match body w with
    | (Ok a, w') => (Ok a, w')
    | (Raise e, w') => if is_Exception e then handler e w' else (Raise e, w')
    end.

Definition get_db : M (option Database) := fun w => (Ok (db w), w).

Definition get_ObjectId : M (option (string -> Result bson_oid)) :=
  fun w => (Ok (ObjectId w), w).

Definition lift {A : Type} (r : Result A) : M A := fun w => (r, w).

Declare Scope py_scope.
Delimit Scope py_scope with py.
Notation "'let*' x ':=' c 'in' k" := (bind c (fun x => k))
  (at level 10, x name, c at level 100, k at level 200) : py_scope.
Notation "'run' c 'then' k" := (bind c (fun _ => k))
  (at level 10, c at level 100, k at level 200) : py_scope.
Local Open Scope py_scope.

(** A document matches a filter when it has every item of the filter. *)
Definition matches (filter doc : document) : bool :=
  forallb (fun kv => bool_decide (dict_get (fst kv) doc = Some (snd kv))) filter.

(** One call of a collection method: it is logged, and it raises when the
    store fails it. *)
Definition store_call (m : store_method) (coll : string) (op : store_op) : M Database :=
  fun w =>
    match db w with
    | None => (Raise (TypeError "'NoneType' object is not subscriptable"), w)
    | Some d =>
        match failing d m coll with
        | Some msg => (Raise (PyMongoError msg), log_op op w)
        | None => (Ok d, log_op op w)
        end
    end.

(** [db[coll].find_one(filter)] *)
Definition find_one (coll : string) (filter : document) : M (option document) :=
  let* d := store_call m_find_one coll (OpFindOne coll filter) in
  ret (List.find (matches filter) (coll_docs d coll)).

(** [db[coll].count_documents(filter)] *)
Definition count_documents (coll : string) (filter : document) : M Z :=
  let* d := store_call m_count_documents coll (OpCountDocuments coll filter) in
  ret (Z.of_nat (List.length (List.filter (matches filter) (coll_docs d coll)))).

(** Truth value of what [find_one] returns: [None] and the empty dictionary
    are false. *)
Definition truthy_doc (r : option document) : bool :=
  match r with
  | None => false
  | Some [] => false
  | Some (_ :: _) => true
  end.

(* ===================================================================== *)
(** ** The store adapter ([database.py])                                  *)
(* ===================================================================== *)

(** Modelled from the spec: [database.py], which defines [create_document], is
    not among the sources.  The document the adapter's insert stores for a
    record: the record with the new identifier under [_id]. *)
Definition stored_document (d : Database) (record : document) : document :=
  dict_set "_id" (VObjectId (new_oid (next_oid d))) record.

(** Modelled from the spec: [database.py], which defines [create_document], is
    not among the sources.  The database after the insert of [doc]: the
    document is at the end of its collection and the identifier is used up. *)
Definition insert_doc (collection_name : string) (doc : document) (d : Database)
  : Database :=
  {| collections :=
       <[collection_name := coll_docs d collection_name ++ [doc]]> (collections d);
     next_oid := N.succ (next_oid d);
     failing := failing d |}.

(** Modelled from the spec: [database.py], which defines [create_document], is
    not among the sources.  The adapter's insert turns the record into a
    document of the store, gives it a new identifier, persists it and returns
    the identifier as a string; it fails with [StoreUnavailable] when no
    connection is established and with [WriteFailure] when the write fails. *)
Definition create_document (collection_name : string) (record : document) : M string :=
  fun w =>
    match db w with
    | None => (Raise StoreUnavailable, w)
    | Some d =>
        let doc := stored_document d record in
        let w' := log_op (OpInsertOne collection_name doc) w in
        match failing d m_insert_one collection_name with
        | Some msg => (Raise (WriteFailure msg), w')
        | None =>
            (Ok (py_str (VObjectId (new_oid (next_oid d)))),
             {| db := Some (insert_doc collection_name doc d);
                ObjectId := ObjectId w;
                trace := trace w' |})
        end
    end.

(** Modelled from the spec: [database.py], which defines [get_documents], is
    not among the sources.  The adapter's find returns up to [limit] documents
    matching the filter, in insertion order; it fails with [StoreUnavailable]
    when no connection is established and with [ReadFailure] when the read
    fails. *)
Definition get_documents (collection_name : string) (filter : document) (limit : Z)
  : M (list document) :=
  fun w =>
    match db w with
    | None => (Raise StoreUnavailable, w)
    | Some d =>
        let w' := log_op (OpFind collection_name filter limit) w in
        match failing d m_find collection_name with
        | Some msg => (Raise (ReadFailure msg), w')
        | None =>
            (Ok (firstn (Z.to_nat limit)
                   (List.filter (matches filter) (coll_docs d collection_name))),
             w')
        end
    end.

(* ===================================================================== *)
(** ** The record schemas ([schemas.py])                                  *)
(* ===================================================================== *)

(** An [Optional[str]] field as a document value. *)
Definition optional_str (o : option string) : value :=
  match o with
  | Some s => VStr s
  | None => VNone
  end.

Module Patient.

Record t : Type := mk {
  first_name : string;
  last_name : string;
  email : option string;
  phone : option string;
  date_of_birth : option string;
  gender : option string;
  address : option string;
  insurance_provider : option string;
  insurance_number : option string;
  notes : option string
}.

(** The fields of the model in declaration order. *)
Definition model_dump (p : t) : document :=
  [ ("first_name", VStr (first_name p));
    ("last_name", VStr (last_name p));
    ("email", optional_str (email p));
    ("phone", optional_str (phone p));
    ("date_of_birth", optional_str (date_of_birth p));
    ("gender", optional_str (gender p));
    ("address", optional_str (address p));
    ("insurance_provider", optional_str (insurance_provider p));
    ("insurance_number", optional_str (insurance_number p));
    ("notes", optional_str (notes p)) ].

Definition required_fields : list string := ["first_name"; "last_name"].

End Patient.

Module Doctor.

Record t : Type := mk {
  first_name : string;
  last_name : string;
  email : option string;
  phone : option string;
  department : string;
  title : option string
}.

Definition model_dump (d : t) : document :=
  [ ("first_name", VStr (first_name d));
    ("last_name", VStr (last_name d));
    ("email", optional_str (email d));
    ("phone", optional_str (phone d));
    ("department", VStr (department d));
    ("title", optional_str (title d)) ].

Definition required_fields : list string := ["first_name"; "last_name"; "department"].

End Doctor.

Module Appointment.

Record t : Type := mk {
  patient_id : string;
  doctor_id : string;
  start_time : datetime;
  duration_minutes : Z;
  reason : option string;
  status : string
}.

Definition model_dump (a : t) : document :=
  [ ("patient_id", VStr (patient_id a));
    ("doctor_id", VStr (doctor_id a));
    ("start_time", VDatetime (start_time a));
    ("duration_minutes", VInt (duration_minutes a));
    ("reason", optional_str (reason a));
    ("status", VStr (status a)) ].

Definition required_fields : list string := ["patient_id"; "doctor_id"; "start_time"].

(** [Field(30, ge=5, le=240)] *)
Definition duration_default : Z := 30.
Definition duration_ge : Z := 5.
Definition duration_le : Z := 240.

(** [Field("scheduled")] *)
Definition status_default : string := "scheduled".

Definition with_duration (z : Z) (a : t) : t :=
  {| patient_id := patient_id a;
     doctor_id := doctor_id a;
     start_time := start_time a;
     duration_minutes := z;
     reason := reason a;
     status := status a |}.

End Appointment.

(* ===================================================================== *)
(** ** The route handlers ([main.py])                                     *)
(* ===================================================================== *)

(** [{"id": identifier}] *)
Definition id_reply (identifier : string) : document := [("id", VStr identifier)].

Definition create_patient (payload : Patient.t) : M document :=
  let* patient_id := create_document "patient" (Patient.model_dump payload) in
  ret (id_reply patient_id).

Definition list_patients (limit : Z) : M (list document) :=
  let* docs := get_documents "patient" [] limit in
  ret (map serialize_doc docs).

Definition create_doctor (payload : Doctor.t) : M document :=
  let* doctor_id := create_document "doctor" (Doctor.model_dump payload) in
  ret (id_reply doctor_id).

Definition list_doctors (limit : Z) : M (list document) :=
  let* docs := get_documents "doctor" [] limit in
  ret (map serialize_doc docs).

(** [db[coll].find_one({"_id": ObjectId(ref)}) if ObjectId else True], read as
    the truth value that [not] tests afterwards. *)
Definition reference_exists (coll : string) (ref : string) : M bool :=
  let* ctor := get_ObjectId in
  match ctor with
  | Some make =>
      let* oid := lift (make ref) in
      let* found := find_one coll [("_id", VObjectId oid)] in
      ret (truthy_doc found)
  | None => ret true
  end.

(** The body of the [try] block of [create_appointment]. *)
Definition referential_checks (payload : Appointment.t) : M unit :=
  let pid := Appointment.patient_id payload in
  let did := Appointment.doctor_id payload in
  let* patient_exists := reference_exists "patient" pid in
  let* doctor_exists := reference_exists "doctor" did in
  if negb patient_exists then raise (HTTPException 404 "Patient not found")
  else if negb doctor_exists then raise (HTTPException 404 "Doctor not found")
  else ret tt.

Definition create_appointment (payload : Appointment.t) : M document :=
  let* handle := get_db in
  match handle with
  | None => raise (HTTPException 500 "Database not available")
  | Some _ =>
      run try_except (referential_checks payload) (fun _ => ret tt) then
      let* appt_id := create_document "appointment" (Appointment.model_dump payload) in
      ret (id_reply appt_id)
  end.

Definition list_appointments (limit : Z) : M (list document) :=
  let* docs := get_documents "appointment" [] limit in
  ret (map serialize_doc docs).

(** The body of the [try] block of [get_stats]. *)
Definition count_all : M document :=
  let* patients := count_documents "patient" [] in
  let* doctors := count_documents "doctor" [] in
  let* appointments := count_documents "appointment" [] in
  ret [ ("patients", VInt patients);
        ("doctors", VInt doctors);
        ("appointments", VInt appointments) ].

Definition get_stats : M document :=
  let* handle := get_db in
  match handle with
  | None => raise (HTTPException 500 "Database not available")
  | Some _ =>
      try_except count_all (fun e => raise (HTTPException 500 (exn_str e)))
  end.

(** The message of the first count of [get_stats] that the store fails, if
    any: the patients are counted first, then the doctors, then the
    appointments. *)
Definition first_count_failure (d : Database) : option string :=
  match failing d m_count_documents "patient" with
  | Some msg => Some msg
  | None =>
      match failing d m_count_documents "doctor" with
      | Some msg => Some msg
      | None => failing d m_count_documents "appointment"
      end
  end.

(** [limit: Optional[int] = 100] *)
Definition default_limit : Z := 100.

(** [str(e)[:80]], the only truncation of an error message in [main.py]; it
    is applied by [test_database], which reports the store's state and never
    fails. *)
Definition display_limit : nat := 80.

Definition truncate_for_display (msg : string) : string :=
  String.substring 0 display_limit msg.

(* ===================================================================== *)
(** ** Request bodies and their validation                                *)
(* ===================================================================== *)

#[local] Set Warnings "-register-all".

(** A JSON value of a request body; numbers are the integers. *)
Inductive json : Type :=
| JNull
| JBool (b : bool)
| JNumber (z : Z)
| JString (s : string)
| JArray (items : list json)
| JObject (members : list (string * json)).

(** One entry of a validation error: the field and the kind of error. *)
Definition verror : Type := (string * string)%type.

(** The outcome of validating a body, or one field of it: the errors of all
    the fields are collected. *)
Inductive validated (A : Type) : Type :=
| Valid (a : A)
| Invalid (errs : list verror).

Arguments Valid {A} a.
Arguments Invalid {A} errs.

Definition is_valid {A : Type} (r : validated A) : bool :=
  match r with
  | Valid _ => true
  | Invalid _ => false
  end.

Definition errors_of {A : Type} (r : validated A) : list verror :=
  match r with
  | Valid _ => []
  | Invalid errs => errs
  end.

(** Building a model from its fields, left to right. *)
Definition vap {A B : Type} (f : validated (A -> B)) (x : validated A) : validated B :=
  match f, x with
  | Valid g, Valid a => Valid (g a)
  | Valid _, Invalid e => Invalid e
  | Invalid e, Valid _ => Invalid e
  | Invalid e1, Invalid e2 => Invalid (e1 ++ e2)
  end.

Notation "f <*> x" := (vap f x) (at level 50, left associativity) : py_scope.

(** What the validation library decides outside the schemas: how a value of
    another JSON type is read for a [str] or an [int] field, how a datetime is
    parsed, and which addresses [EmailStr] takes (with the normalised
    address). *)
Record coercions : Type := mk_coercions {
  lax_str : json -> option string;
  lax_int : json -> option Z;
  parse_datetime : json -> option datetime;
  validate_email : string -> option string
}.

Section Validation.

Variable px : coercions.

(** [str] *)
Definition check_str (j : json) : string + string :=
  match j with
  | JString s => inr s
  | _ => match lax_str px j with
         | Some s => inr s
         | None => inl "string_type"
         end
  end.

(** [EmailStr] *)
Definition check_email (j : json) : string + string :=
  match check_str j with
  | inr s => match validate_email px s with
             | Some s' => inr s'
             | None => inl "value_error"
             end
  | inl e => inl e
  end.

(** [datetime] *)
Definition check_datetime (j : json) : string + datetime :=
  match parse_datetime px j with
  | Some d => inr d
  | None => inl "datetime_parsing"
  end.

(** [int] with [ge] and [le] bounds *)
Definition check_int_range (ge le : Z) (j : json) : string + Z :=
  match (match j with JNumber z => Some z | _ => lax_int px j end) with
  | None => inl "int_type"
  | Some z =>
      if (z <? ge)%Z then inl "greater_than_equal"
      else if (le <? z)%Z then inl "less_than_equal"
      else inr z
  end.

(** [Optional[T]]: [null] is [None]. *)
Definition check_optional {A : Type} (check : json -> string + A) (j : json)
  : string + option A :=
  match j with
  | JNull => inr None
  | _ => match check j with
         | inr a => inr (Some a)
         | inl e => inl e
         end
  end.

Definition checked {A : Type} (name : string) (r : string + A) : validated A :=
  match r with
  | inr a => Valid a
  | inl kind => Invalid [(name, kind)]
  end.

(** [Field(...)]: the field must be in the body. *)
Definition required_field {A : Type} (name : string) (check : json -> string + A)
    (body : dict json) : validated A :=
  match dict_get name body with
  | None => Invalid [(name, "missing")]
  | Some j => checked name (check j)
  end.

(** [Field(default)]: an absent field takes the default, which is not
    validated. *)
Definition default_field {A : Type} (name : string) (default : A)
    (check : json -> string + A) (body : dict json) : validated A :=
  match dict_get name body with
  | None => Valid default
  | Some j => checked name (check j)
  end.

Definition validate_Patient (body : dict json) : validated Patient.t :=
  Valid Patient.mk
    <*> required_field "first_name" check_str body
    <*> required_field "last_name" check_str body
    <*> default_field "email" None (check_optional check_email) body
    <*> default_field "phone" None (check_optional check_str) body
    <*> default_field "date_of_birth" None (check_optional check_str) body
    <*> default_field "gender" None (check_optional check_str) body
    <*> default_field "address" None (check_optional check_str) body
    <*> default_field "insurance_provider" None (check_optional check_str) body
    <*> default_field "insurance_number" None (check_optional check_str) body
    <*> default_field "notes" None (check_optional check_str) body.

Definition validate_Doctor (body : dict json) : validated Doctor.t :=
  Valid Doctor.mk
    <*> required_field "first_name" check_str body
    <*> required_field "last_name" check_str body
    <*> default_field "email" None (check_optional check_email) body
    <*> default_field "phone" None (check_optional check_str) body
    <*> required_field "department" check_str body
    <*> default_field "title" None (check_optional check_str) body.

Definition duration_field (body : dict json) : validated Z :=
  default_field "duration_minutes" Appointment.duration_default
    (check_int_range Appointment.duration_ge Appointment.duration_le) body.

Definition validate_Appointment (body : dict json) : validated Appointment.t :=
  Valid Appointment.mk
    <*> required_field "patient_id" check_str body
    <*> required_field "doctor_id" check_str body
    <*> required_field "start_time" check_datetime body
    <*> duration_field body
    <*> default_field "reason" None (check_optional check_str) body
    <*> default_field "status" Appointment.status_default check_str body.

(* ===================================================================== *)
(** ** The boundary in front of the handlers                              *)
(* ===================================================================== *)

(** The body of a response. *)
Inductive content : Type :=
| CDocument (d : document)
| CDocuments (l : list document)
| CDetail (detail : string)
| CValidation (errs : list verror)
| CText (text : string).

Record http_response : Type := mk_response {
  status : Z;
  body_of : content
}.

(** What the framework answers for the outcome of a handler: the returned
    value with 200, an [HTTPException] with its status and detail, any other
    exception with 500. *)
Definition respond {A : Type} (wrap : A -> content) (r : Result A) : http_response :=
  match r with
  | Ok a => mk_response 200 (wrap a)
  | Raise (HTTPException code detail) => mk_response code (CDetail detail)
  | Raise _ => mk_response 500 (CText "Internal Server Error")
  end.

(** A POST route: the body is validated against the model of the handler's
    parameter; a body that fails is answered with 422 and the handler is not
    called. *)
Definition post_route {T : Type} (validate : dict json -> validated T)
    (handler : T -> M document) (body : dict json) (w : World)
  : http_response * World :=
  match validate body with
  | Invalid errs => (mk_response 422 (CValidation errs), w)
  | Valid payload =>
      let (r, w') := handler payload w in (respond CDocument r, w')
  end.

Definition post_patients : dict json -> World -> http_response * World :=
  post_route validate_Patient create_patient.

Definition post_doctors : dict json -> World -> http_response * World :=
  post_route validate_Doctor create_doctor.

Definition post_appointments : dict json -> World -> http_response * World :=
  post_route validate_Appointment create_appointment.

End Validation.

(* ===================================================================== *)
(** ** The diagnostic route ([test_database])                             *)
(* ===================================================================== *)

(** The response of GET /test: the six entries of its dictionary. *)
Record diagnostics : Type := mk_diagnostics {
  diag_backend : string;
  diag_database : string;
  diag_database_url : option string;
  diag_database_name : option string;
  diag_connection_status : string;
  diag_collections : list string
}.

(** What [test_database] reads outside the module state: the environment of
    the process ([os.getenv]), and the outcomes of [getattr(db, "name", None)]
    and of [db.list_collection_names()] on the connected handle. *)
Record surroundings : Type := mk_surroundings {
  getenv : string -> option string;
  db_name : Result (option string);
  list_collection_names : Result (list string)
}.

(** Truth value of what [os.getenv] and [getattr(db, "name", None)] return:
    [None] and the empty string are false. *)
Definition truthy_str (o : option string) : bool :=
  match o with
  | Some (String _ _) => true
  | Some EmptyString => false
  | None => false
  end.

(** ["✅ Set" if os.getenv(name) else "❌ Not Set"] *)
Definition set_or_not (v : option string) : string :=
  if truthy_str v then "✅ Set" else "❌ Not Set".

(** [getattr(db, "name", None) or "✅ Connected"] *)
Definition name_or_connected (name : option string) : string :=
  match name with
  | Some (String c rest) => String c rest
  | Some EmptyString => "✅ Connected"
  | None => "✅ Connected"
  end.

Definition with_database (text : string) (r : diagnostics) : diagnostics :=
  {| diag_backend := diag_backend r;
     diag_database := text;
     diag_database_url := diag_database_url r;
     diag_database_name := diag_database_name r;
     diag_connection_status := diag_connection_status r;
     diag_collections := diag_collections r |}.

Definition with_database_url (v : option string) (r : diagnostics) : diagnostics :=
  {| diag_backend := diag_backend r;
     diag_database := diag_database r;
     diag_database_url := v;
     diag_database_name := diag_database_name r;
     diag_connection_status := diag_connection_status r;
     diag_collections := diag_collections r |}.

Definition with_database_name (v : option string) (r : diagnostics) : diagnostics :=
  {| diag_backend := diag_backend r;
     diag_database := diag_database r;
     diag_database_url := diag_database_url r;
     diag_database_name := v;
     diag_connection_status := diag_connection_status r;
     diag_collections := diag_collections r |}.

Definition with_connection_status (text : string) (r : diagnostics) : diagnostics :=
  {| diag_backend := diag_backend r;
     diag_database := diag_database r;
     diag_database_url := diag_database_url r;
     diag_database_name := diag_database_name r;
     diag_connection_status := text;
     diag_collections := diag_collections r |}.

Definition with_collections (names : list string) (r : diagnostics) : diagnostics :=
  {| diag_backend := diag_backend r;
     diag_database := diag_database r;
     diag_database_url := diag_database_url r;
     diag_database_name := diag_database_name r;
     diag_connection_status := diag_connection_status r;
     diag_collections := names |}.

(** The dictionary [test_database] starts from. *)
Definition initial_diagnostics : diagnostics :=
  {| diag_backend := "✅ Running";
     diag_database := "❌ Not Available";
     diag_database_url := None;
     diag_database_name := None;
     diag_connection_status := "Not Connected";
     diag_collections := [] |}.

(** The inner [try] statement of [test_database]: the names of the
    collections, ten at most, or the error of the store in the [database]
    entry. *)
Definition probe_collections (env : surroundings) (response : diagnostics)
  : Result diagnostics :=
  match list_collection_names env with
  | Ok names =>
      Ok (with_database "✅ Connected & Working"
            (with_collections (firstn 10 names) response))
  | Raise e =>
      if is_Exception e
      then Ok (with_database
                 ("⚠️ Connected but Error: " +:+ truncate_for_display (exn_str e))
                 response)
      else Raise e
  end.

(** The outer [try] statement of [test_database].  The entries written before
    an exception stay written. *)
Definition probe_database (env : surroundings) (w : World) (response : diagnostics)
  : Result diagnostics :=
  match db w with
  | Some _ =>
      let response := with_database "✅ Available" response in
      let response :=
        with_database_url (Some (set_or_not (getenv env "DATABASE_URL"))) response in
      match db_name env with
      | Ok name =>
          let response :=
            with_database_name (Some (name_or_connected name)) response in
          let response := with_connection_status "Connected" response in
          probe_collections env response
      | Raise e =>
          if is_Exception e
          then Ok (with_database ("❌ Error: " +:+ truncate_for_display (exn_str e))
                     response)
          else Raise e
      end
  | None => Ok (with_database "⚠️ Available but not initialized" response)
  end.

Definition test_database (env : surroundings) (w : World) : Result diagnostics :=
  match probe_database env w initial_diagnostics with
  | Ok response =>
      let response :=
        with_database_url (Some (set_or_not (getenv env "DATABASE_URL"))) response in
      let response :=
        with_database_name (Some (set_or_not (getenv env "DATABASE_NAME"))) response in
      Ok response
  | Raise e => Raise e
  end.

(* ===================================================================== *)
(** ** Vocabulary of the further properties                               *)
(* ===================================================================== *)

Definition is_count_op (op : store_op) : bool :=
  match op with
  | OpCountDocuments _ _ => true
  | _ => false
  end.

Definition is_find_one_op (op : store_op) : bool :=
  match op with
  | OpFindOne _ _ => true
  | _ => false
  end.

(** The collection holds a document with this identifier. *)
Definition has_document (d : Database) (coll : string) (o : bson_oid) : Prop :=
  exists doc, In doc (coll_docs d coll) /\ dict_get "_id" doc = Some (VObjectId o).

(** The names of the fields the models declare. *)
Definition patient_fields : list string :=
  [ "first_name"; "last_name"; "email"; "phone"; "date_of_birth"; "gender";
    "address"; "insurance_provider"; "insurance_number"; "notes" ].

Definition doctor_fields : list string :=
  [ "first_name"; "last_name"; "email"; "phone"; "department"; "title" ].

Definition appointment_fields : list string :=
  [ "patient_id"; "doctor_id"; "start_time"; "duration_minutes"; "reason"; "status" ].

Definition appointment_with_status (s : string) (a : Appointment.t) : Appointment.t :=
  {| Appointment.patient_id := Appointment.patient_id a;
     Appointment.doctor_id := Appointment.doctor_id a;
     Appointment.start_time := Appointment.start_time a;
     Appointment.duration_minutes := Appointment.duration_minutes a;
     Appointment.reason := Appointment.reason a;
     Appointment.status := s |}.

Definition patient_with_date_of_birth (s : option string) (p : Patient.t) : Patient.t :=
  {| Patient.first_name := Patient.first_name p;
     Patient.last_name := Patient.last_name p;
     Patient.email := Patient.email p;
     Patient.phone := Patient.phone p;
     Patient.date_of_birth := s;
     Patient.gender := Patient.gender p;
     Patient.address := Patient.address p;
     Patient.insurance_provider := Patient.insurance_provider p;
     Patient.insurance_number := Patient.insurance_number p;
     Patient.notes := Patient.notes p |}.

(** The status codes of the responses. *)
Definition status_of {A : Type} (r : http_response * A) : Z := status (fst r).

(* ===================================================================== *)
(** ** Sample data                                                        *)
(* ===================================================================== *)

Definition sample_datetime : datetime :=
  mk_datetime 2024 5 1 9 30 0 0 None.

(** A validation library that coerces nothing, reads one timestamp and takes
    every address as it is. *)
Definition sample_coercions : coercions :=
  {| lax_str := fun _ => None;
     lax_int := fun _ => None;
     parse_datetime := fun j =>
       match j with
       | JString s =>
           if String.eqb s "2024-05-01T09:30:00" then Some sample_datetime else None
       | _ => None
       end;
     validate_email := fun s => Some s |}.

(** A store that never fails a call. *)
Definition never_failing : store_method -> string -> option string :=
  fun _ _ => None.

Definition empty_database : Database :=
  {| collections := ∅; next_oid := 0; failing := never_failing |}.

(** A connected process with bson imported, on an empty store. *)
Definition empty_world : World :=
  {| db := Some empty_database; ObjectId := Some bson_ObjectId; trace := [] |}.

(** The same process with the import of bson failed. *)
Definition world_without_bson : World :=
  {| db := Some empty_database; ObjectId := None; trace := [] |}.

(** A process without a connection. *)
Definition disconnected_world : World :=
  {| db := None; ObjectId := Some bson_ObjectId; trace := [] |}.

Definition sample_patient : Patient.t :=
  {| Patient.first_name := "Ada";
     Patient.last_name := "Lovelace";
     Patient.email := Some "ada@example.org";
     Patient.phone := None;
     Patient.date_of_birth := Some "1815-12-10";
     Patient.gender := None;
     Patient.address := None;
     Patient.insurance_provider := None;
     Patient.insurance_number := None;
     Patient.notes := None |}.

Definition sample_doctor : Doctor.t :=
  {| Doctor.first_name := "John";
     Doctor.last_name := "Snow";
     Doctor.email := None;
     Doctor.phone := None;
     Doctor.department := "Epidemiology";
     Doctor.title := Some "MD" |}.

(** The store after POST /doctors on the empty store: one doctor, whose
    identifier is the first one generated. *)
Definition world_with_doctor : World := snd (create_doctor sample_doctor empty_world).

Definition stored_doctor_id : string := "000000000000000000000000".

(** A well-formed identifier that no stored patient has. *)
Definition unknown_patient_id : string := "507f1f77bcf86cd799439011".

Definition appointment_unknown_patient : Appointment.t :=
  {| Appointment.patient_id := unknown_patient_id;
     Appointment.doctor_id := stored_doctor_id;
     Appointment.start_time := sample_datetime;
     Appointment.duration_minutes := 30;
     Appointment.reason := None;
     Appointment.status := "scheduled" |}.

(** An appointment whose references are not ObjectId strings. *)
Definition appointment_free_form_ids : Appointment.t :=
  {| Appointment.patient_id := "patient-17";
     Appointment.doctor_id := "dr-snow";
     Appointment.start_time := sample_datetime;
     Appointment.duration_minutes := 45;
     Appointment.reason := Some "check-up";
     Appointment.status := "scheduled" |}.

(** A body of POST /appointments without [duration_minutes]. *)
Definition appointment_body : dict json :=
  [ ("patient_id", JString "patient-17");
    ("doctor_id", JString "dr-snow");
    ("start_time", JString "2024-05-01T09:30:00") ].

(** The appointment that [appointment_body] validates to. *)
Definition appointment_of_body : Appointment.t :=
  {| Appointment.patient_id := "patient-17";
     Appointment.doctor_id := "dr-snow";
     Appointment.start_time := sample_datetime;
     Appointment.duration_minutes := 30;
     Appointment.reason := None;
     Appointment.status := "scheduled" |}.

(** A body of POST /doctors without [department]. *)
Definition doctor_body_without_department : dict json :=
  [ ("first_name", JString "John"); ("last_name", JString "Snow") ].

(** A stored appointment. *)
Definition sample_stored_appointment : document :=
  [ ("_id", VObjectId (mk_oid unknown_patient_id));
    ("patient_id", VStr "patient-17");
    ("start_time", VDatetime sample_datetime);
    ("duration_minutes", VInt 30);
    ("reason", VNone) ].

(** A message of one hundred characters. *)
Definition long_message : string :=
  "connection refused: the primary at db-0.internal:27017 did not answer within the configured timeout.".

(** A store on which counting the doctors fails with [long_message]. *)
Definition world_failing_count : World :=
  {| db := Some {| collections := ∅;
                   next_oid := 0;
                   failing := fun m coll =>
                     match m with
                     | m_count_documents =>
                         if String.eqb coll "doctor" then Some long_message else None
                     | _ => None
                     end |};
     ObjectId := Some bson_ObjectId;
     trace := [] |}.

(** A store on which counting the patients fails. *)
Definition world_failing_patient_count : World :=
  {| db := Some {| collections := ∅;
                   next_oid := 0;
                   failing := fun m coll =>
                     match m with
                     | m_count_documents =>
                         if String.eqb coll "patient" then Some "timeout" else None
                     | _ => None
                     end |};
     ObjectId := Some bson_ObjectId;
     trace := [] |}.

(** A store on which looking a patient up fails. *)
Definition database_failing_lookup : Database :=
  {| collections := ∅;
     next_oid := 0;
     failing := fun m coll =>
       match m with
       | m_find_one => if String.eqb coll "patient" then Some "timeout" else None
       | _ => None
       end |}.

Definition world_failing_lookup : World :=
  {| db := Some database_failing_lookup;
     ObjectId := Some bson_ObjectId;
     trace := [] |}.

(** The database of [world_with_doctor]. *)
Definition database_with_doctor : Database :=
  insert_doc "doctor" (stored_document empty_database (Doctor.model_dump sample_doctor))
    empty_database.

(** The fields of a document around its [_id], with a field [id] of its own
    after it. *)
Definition fields_before_id : document := [("name", VStr "x")].

Definition fields_after_id : document := [("id", VStr "own"); ("rank", VInt 2)].

(** A document whose identifier is a datetime. *)
Definition document_with_datetime_id : document :=
  [ ("_id", VDatetime sample_datetime); ("seen", VDatetime sample_datetime) ].

(** A body of POST /doctors with the required fields only. *)
Definition doctor_body : dict json :=
  [ ("first_name", JString "John"); ("last_name", JString "Snow");
    ("department", JString "Epidemiology") ].

(** A body of POST /patients with the required fields only. *)
Definition patient_body : dict json :=
  [ ("first_name", JString "Ada"); ("last_name", JString "Lovelace") ].

(** A body of POST /patients with an [email]. *)
Definition patient_body_with_email : dict json :=
  [ ("first_name", JString "Ada"); ("last_name", JString "Lovelace");
    ("email", JString "not-an-address") ].

(** A validation library that takes one address only. *)
Definition selective_coercions : coercions :=
  {| lax_str := fun _ => None;
     lax_int := fun _ => None;
     parse_datetime := fun _ => None;
     validate_email := fun s =>
       if String.eqb s "ada@example.org" then Some s else None |}.

(** A process whose DATABASE_URL is set and whose DATABASE_NAME is set to the
    empty string, on a store that fails to list its collections. *)
Definition surroundings_failing_list : surroundings :=
  {| getenv := fun name =>
       if String.eqb name "DATABASE_URL" then Some "mongodb://db-0.internal:27017"
       else if String.eqb name "DATABASE_NAME" then Some ""
       else None;
     db_name := Ok (Some "hospital");
     list_collection_names := Raise (PyMongoError long_message) |}.

(** The same process on a store with twelve collections. *)
Definition surroundings_twelve_collections : surroundings :=
  {| getenv := getenv surroundings_failing_list;
     db_name := Ok (Some "hospital");
     list_collection_names :=
       Ok [ "c01"; "c02"; "c03"; "c04"; "c05"; "c06";
            "c07"; "c08"; "c09"; "c10"; "c11"; "c12" ] |}.

(* ===================================================================== *)
(** ** Dictionaries: lookup and update                                    *)
(* ===================================================================== *)

#[local] Arguments String.eqb : simpl never.

(** Distinctness of a literal list of keys. *)
Ltac distinct_keys :=
  repeat (constructor; [simpl; intuition discriminate |]); constructor.

Lemma dict_get_set_eq {V : Type} (k : string) (v : V) (d : dict V) :
  dict_get k (dict_set k v d) = Some v.
Proof.
  induction d as [|[k' v'] rest IH]; simpl.
  - rewrite String.eqb_refl. reflexivity.
  - destruct (String.eqb k k') eqn:E; simpl.
    + rewrite String.eqb_refl. reflexivity.
    + rewrite E. exact IH.
Qed.

Lemma dict_get_set_ne {V : Type} (k k' : string) (v : V) (d : dict V) :
  k <> k' -> dict_get k' (dict_set k v d) = dict_get k' d.
Proof.
  intros Hne.
  assert (Hk : String.eqb k' k = false) by (apply String.eqb_neq; congruence).
  induction d as [|[k0 v0] rest IH]; simpl.
  - rewrite Hk. reflexivity.
  - destruct (String.eqb k k0) eqn:E; simpl.
    + apply String.eqb_eq in E. subst k0. rewrite Hk. reflexivity.
    + rewrite IH. reflexivity.
Qed.

Lemma dict_get_None {V : Type} (k : string) (d : dict V) :
  dict_get k d = None <-> ~ In k (dict_keys d).
Proof.
  induction d as [|[k' v'] rest IH]; simpl.
  - split; [intros _ [] | reflexivity].
  - destruct (String.eqb k k') eqn:E.
    + apply String.eqb_eq in E. subst k'. split; [discriminate | intros H; exfalso; apply H; left; reflexivity].
    + apply String.eqb_neq in E. rewrite IH. split.
      * intros H [H1 | H1]; [congruence | exact (H H1)].
      * intros H H1. apply H. right. exact H1.
Qed.

Lemma dict_set_fresh {V : Type} (k : string) (v : V) (d : dict V) :
  ~ In k (dict_keys d) -> dict_set k v d = d ++ [(k, v)].
Proof.
  induction d as [|[k' v'] rest IH]; simpl; intros Hnot.
  - reflexivity.
  - destruct (String.eqb k k') eqn:E.
    + apply String.eqb_eq in E. exfalso. apply Hnot. left. congruence.
    + rewrite IH; [reflexivity | intros H; apply Hnot; right; exact H].
Qed.

Lemma dict_set_keys {V : Type} (k k' : string) (v : V) (d : dict V) :
  In k' (dict_keys (dict_set k v d)) <-> k' = k \/ In k' (dict_keys d).
Proof.
  induction d as [|[k0 v0] rest IH]; simpl.
  - split; intros [H | H]; auto.
  - destruct (String.eqb k k0) eqn:E; simpl.
    + apply String.eqb_eq in E. subst k0. split; [intros [H | H] | intros [H | [H | H]]]; auto.
    + rewrite IH. split; [intros [H | [H | H]] | intros [H | [H | H]]]; auto.
Qed.

Lemma dict_set_wf {V : Type} (k : string) (v : V) (d : dict V) :
  dict_wf d -> dict_wf (dict_set k v d).
Proof.
  unfold dict_wf. induction d as [|[k0 v0] rest IH]; simpl; intros Hwf.
  - constructor; [intros H; inversion H | constructor].
  - inversion Hwf as [|? ? Hnot Hrest]; subst.
    destruct (String.eqb k k0) eqn:E; simpl.
    + apply String.eqb_eq in E. subst k0. constructor; assumption.
    + apply String.eqb_neq in E. constructor.
      * intros Hin. apply (dict_set_keys k k0 v rest) in Hin.
        destruct Hin as [Hin | Hin]; [congruence | exact (Hnot Hin)].
      * apply IH. exact Hrest.
Qed.

Lemma dict_set_Forall {V : Type} (P : string * V -> Prop) (k : string) (v : V) (d : dict V) :
  P (k, v) -> Forall P d -> Forall P (dict_set k v d).
Proof.
  intros Hkv. induction 1 as [|[k0 v0] rest H0 Hrest IH]; simpl.
  - constructor; [exact Hkv | constructor].
  - destruct (String.eqb k k0); constructor; assumption.
Qed.

(** Updating with items whose keys are new and distinct appends them. *)
Lemma dict_update_fresh {V : Type} (items acc : dict V) :
  List.NoDup (dict_keys (acc ++ items)) -> dict_update items acc = acc ++ items.
Proof.
  unfold dict_update. revert acc.
  induction items as [|[k v] rest IH]; intros acc Hnd; simpl.
  - rewrite app_nil_r. reflexivity.
  - assert (Hfresh : ~ In k (dict_keys acc)).
    { unfold dict_keys in *. rewrite map_app in Hnd. simpl in Hnd.
      apply List.NoDup_remove_2 in Hnd. intros Hin. apply Hnd.
      apply in_app_iff. left. exact Hin. }
    rewrite (dict_set_fresh k v acc Hfresh).
    rewrite IH.
    + rewrite <- app_assoc. reflexivity.
    + rewrite <- app_assoc. exact Hnd.
Qed.

(* ===================================================================== *)
(** ** Serialisation                                                      *)
(* ===================================================================== *)

Lemma serialize_item_set (out : document) (kv : string * value) :
  serialize_item out kv
  = dict_set (fst (transport_field kv)) (snd (transport_field kv)) out.
Proof.
  destruct kv as [k v]. unfold serialize_item, transport_field.
  destruct (String.eqb k "_id"); [reflexivity |].
  destruct v; reflexivity.
Qed.

Lemma serialize_fold_update (doc acc : document) :
  fold_left serialize_item doc acc = dict_update (map transport_field doc) acc.
Proof.
  unfold dict_update. revert acc.
  induction doc as [|kv rest IH]; intros acc; simpl.
  - reflexivity.
  - rewrite serialize_item_set. apply IH.
Qed.

Lemma transport_field_key (kv : string * value) :
  fst (transport_field kv) = transport_key (fst kv).
Proof.
  destruct kv as [k v]. unfold transport_field, transport_key. simpl.
  destruct (String.eqb k "_id"); reflexivity.
Qed.

Lemma transport_keys (doc : document) :
  dict_keys (map transport_field doc) = map transport_key (dict_keys doc).
Proof.
  unfold dict_keys. rewrite !map_map. apply map_ext. apply transport_field_key.
Qed.

Lemma transport_key_not_id (k : string) : transport_key k <> "_id".
Proof.
  unfold transport_key. destruct (String.eqb k "_id") eqn:E.
  - discriminate.
  - apply String.eqb_neq. exact E.
Qed.

Lemma transport_key_cases (k : string) :
  (k = "_id" /\ transport_key k = "id") \/ (k <> "_id" /\ transport_key k = k).
Proof.
  unfold transport_key. destruct (String.eqb k "_id") eqn:E.
  - left. split; [apply String.eqb_eq; exact E | reflexivity].
  - right. split; [apply String.eqb_neq; exact E | reflexivity].
Qed.

(** Renaming [_id] to [id] keeps the keys distinct when no field is called
    [id] already. *)
Lemma transport_keys_NoDup (ks : list string) :
  List.NoDup ks -> ~ In "id" ks -> List.NoDup (map transport_key ks).
Proof.
  induction 1 as [|k ks Hnot Hnd IH]; intros Hid; simpl.
  - constructor.
  - constructor.
    + intros Hin. apply in_map_iff in Hin. destruct Hin as [k2 [Heq Hk2]].
      destruct (transport_key_cases k) as [[Hk Htk] | [Hk Htk]];
        destruct (transport_key_cases k2) as [[Hk2' Htk2] | [Hk2' Htk2]];
        rewrite Htk, Htk2 in Heq.
      * apply Hnot. congruence.
      * apply Hid. right. congruence.
      * apply Hid. left. congruence.
      * apply Hnot. congruence.
    + apply IH. intros H. apply Hid. right. exact H.
Qed.

(** Without a field called [id], the loop of [serialize_doc] transports the
    fields one by one, in order. *)
Lemma serialize_doc_map (doc : document) :
  dict_wf doc -> ~ In "id" (dict_keys doc) ->
  serialize_doc doc = map transport_field doc.
Proof.
  intros Hwf Hid. unfold serialize_doc.
  rewrite serialize_fold_update.
  rewrite dict_update_fresh; [reflexivity |].
  simpl. rewrite transport_keys. apply transport_keys_NoDup; assumption.
Qed.

Lemma transported_id (doc : document) :
  ~ In "id" (dict_keys doc) ->
  dict_get "id" (map transport_field doc)
  = option_map (fun v => VStr (py_str v)) (dict_get "_id" doc).
Proof.
  induction doc as [|[k v] rest IH]; simpl; intros Hid.
  - reflexivity.
  - destruct (String.eqb k "_id") eqn:E; simpl.
    + apply String.eqb_eq in E. subst k. reflexivity.
    + assert (Hk : String.eqb "id" k = false).
      { apply String.eqb_neq. intros H. apply Hid. left. congruence. }
      assert (Hk' : String.eqb "_id" k = false).
      { rewrite String.eqb_sym. exact E. }
      rewrite Hk, Hk'. apply IH. intros H. apply Hid. right. exact H.
Qed.

Lemma transported_other (doc : document) (k : string) :
  k <> "_id" -> k <> "id" ->
  dict_get k (map transport_field doc) = option_map transport_value (dict_get k doc).
Proof.
  intros H1 H2. induction doc as [|[k0 v0] rest IH]; simpl.
  - reflexivity.
  - destruct (String.eqb k0 "_id") eqn:E; simpl.
    + apply String.eqb_eq in E. subst k0.
      assert (Ha : String.eqb k "id" = false) by (apply String.eqb_neq; exact H2).
      assert (Hb : String.eqb k "_id" = false) by (apply String.eqb_neq; exact H1).
      rewrite Ha, Hb. exact IH.
    + destruct (String.eqb k k0); [reflexivity | exact IH].
Qed.

Lemma dict_get_app {V : Type} (k : string) (a b : dict V) :
  dict_get k (a ++ b)
  = match dict_get k a with
    | Some v => Some v
    | None => dict_get k b
    end.
Proof.
  induction a as [|[k0 v0] rest IH]; simpl.
  - reflexivity.
  - destruct (String.eqb k k0); [reflexivity | exact IH].
Qed.

(** In a dictionary the order of the items does not change a lookup. *)
Lemma dict_get_rev {V : Type} (k : string) (d : dict V) :
  dict_wf d -> dict_get k (rev d) = dict_get k d.
Proof.
  unfold dict_wf. induction d as [|[k0 v0] rest IH]; simpl; intros Hwf.
  - reflexivity.
  - inversion Hwf as [|? ? Hnot Hrest]; subst.
    rewrite dict_get_app, (IH Hrest). simpl.
    destruct (String.eqb k k0) eqn:E.
    + apply String.eqb_eq in E. subst k0.
      apply dict_get_None in Hnot. rewrite Hnot. reflexivity.
    + destruct (dict_get k rest); reflexivity.
Qed.

(** After an update a key holds the value of its last item, or what it held
    before. *)
Lemma dict_get_update {V : Type} (k : string) (items acc : dict V) :
  dict_get k (dict_update items acc)
  = match dict_get k (rev items) with
    | Some v => Some v
    | None => dict_get k acc
    end.
Proof.
  unfold dict_update. revert acc.
  induction items as [|[k0 v0] rest IH]; intros acc; simpl.
  - reflexivity.
  - rewrite IH, dict_get_app. simpl.
    destruct (dict_get k (rev rest)); [reflexivity |].
    destruct (String.eqb k k0) eqn:E.
    + apply String.eqb_eq in E. subst k0. apply dict_get_set_eq.
    + apply String.eqb_neq in E. apply dict_get_set_ne. congruence.
Qed.

Lemma transport_keys_fixed (ks : list string) :
  ~ In "_id" ks -> map transport_key ks = ks.
Proof.
  induction ks as [|k ks IH]; simpl; intros Hno.
  - reflexivity.
  - destruct (transport_key_cases k) as [[Hk _] | [_ Htk]].
    + exfalso. apply Hno. left. exact Hk.
    + rewrite Htk, IH; [reflexivity | intros H; apply Hno; right; exact H].
Qed.

(** A document that does not hold both [_id] and [id] is transported field
    by field, in order. *)
Lemma serialize_doc_fieldwise (doc : document) :
  dict_wf doc ->
  ~ In "_id" (dict_keys doc) \/ ~ In "id" (dict_keys doc) ->
  serialize_doc doc = map transport_field doc.
Proof.
  intros Hwf [Hno | Hid].
  - unfold serialize_doc. rewrite serialize_fold_update.
    rewrite dict_update_fresh; [reflexivity |].
    simpl. rewrite transport_keys, (transport_keys_fixed _ Hno). exact Hwf.
  - apply serialize_doc_map; assumption.
Qed.

Lemma transported_own_id (doc : document) :
  ~ In "_id" (dict_keys doc) ->
  dict_get "id" (map transport_field doc)
  = option_map transport_value (dict_get "id" doc).
Proof.
  induction doc as [|[k v] rest IH]; simpl; intros Hno.
  - reflexivity.
  - assert (Hk : String.eqb k "_id" = false).
    { apply String.eqb_neq. intros H. apply Hno. left. exact H. }
    rewrite Hk. simpl.
    destruct (String.eqb "id" k); [reflexivity |].
    apply IH. intros H. apply Hno. right. exact H.
Qed.

(** Whatever the document holds, a key other than [_id] and [id] is
    transported on its own. *)
Lemma serialize_doc_other (doc : document) (k : string) :
  dict_wf doc -> k <> "_id" -> k <> "id" ->
  dict_get k (serialize_doc doc) = option_map transport_value (dict_get k doc).
Proof.
  intros Hwf H1 H2. unfold serialize_doc.
  rewrite serialize_fold_update, dict_get_update, <- map_rev.
  rewrite (transported_other (rev doc) k H1 H2).
  rewrite (dict_get_rev k doc Hwf).
  destruct (dict_get k doc); reflexivity.
Qed.

Lemma transport_ready_nil : transport_ready [].
Proof.
  repeat split; [constructor | intros [] | constructor].
Qed.

Lemma serialize_item_ready (out : document) (kv : string * value) :
  transport_ready out -> transport_ready (serialize_item out kv).
Proof.
  intros [Hwf [Hno Hdt]]. rewrite serialize_item_set.
  repeat split.
  - apply dict_set_wf. exact Hwf.
  - intros Hin. apply dict_set_keys in Hin. destruct Hin as [Hin | Hin].
    + rewrite transport_field_key in Hin. symmetry in Hin.
      exact (transport_key_not_id _ Hin).
    + exact (Hno Hin).
  - apply dict_set_Forall; [| exact Hdt].
    destruct kv as [k v]. unfold transport_field.
    destruct (String.eqb k "_id"); [reflexivity |].
    destruct v; reflexivity.
Qed.

Lemma serialize_fold_ready (doc acc : document) :
  transport_ready acc -> transport_ready (fold_left serialize_item doc acc).
Proof.
  revert acc. induction doc as [|kv rest IH]; intros acc Hacc; simpl.
  - exact Hacc.
  - apply IH. apply serialize_item_ready. exact Hacc.
Qed.

Lemma serialize_doc_ready (doc : document) : transport_ready (serialize_doc doc).
Proof. apply serialize_fold_ready. apply transport_ready_nil. Qed.

Lemma transport_ready_fixed (out : document) :
  ~ In "_id" (dict_keys out) ->
  Forall (fun kv => is_datetime (snd kv) = false) out ->
  map transport_field out = out.
Proof.
  intros Hno Hdt. induction Hdt as [|[k v] rest Hv Hrest IH]; simpl.
  - reflexivity.
  - assert (Hk : String.eqb k "_id" = false).
    { apply String.eqb_neq. intros H. apply Hno. left. exact H. }
    rewrite Hk. rewrite IH.
    + destruct v; simpl in Hv; try discriminate; reflexivity.
    + intros H. apply Hno. right. exact H.
Qed.

Lemma serialize_ready_id (out : document) :
  transport_ready out -> serialize_doc out = out.
Proof.
  intros [Hwf [Hno Hdt]]. unfold serialize_doc.
  rewrite serialize_fold_update.
  rewrite (transport_ready_fixed out Hno Hdt).
  apply (dict_update_fresh out []). exact Hwf.
Qed.

(** C3. For every stored document, a dictionary (each key once) that does
    not hold both an [_id] and an [id] field, as no document of the three
    record kinds does, [serialize_doc] yields the fields of the document
    transported one by one: [_id] is renamed to [id] and holds the string form
    of the identifier, every datetime field holds its ISO text under the same
    key, and every other field is there with its key and value unchanged;
    nothing else is added.  The parts on [_id] and on the keys other than [id]
    hold of every dictionary. *)
Theorem serialize_doc_transports_fields (doc : document) :
  dict_wf doc ->
  dict_get "_id" (serialize_doc doc) = None
  /\ (forall k d, k <> "_id" -> k <> "id" -> dict_get k doc = Some (VDatetime d) ->
        dict_get k (serialize_doc doc) = Some (VStr (isoformat d)))
  /\ (forall k v, k <> "_id" -> k <> "id" -> is_datetime v = false ->
        dict_get k doc = Some v -> dict_get k (serialize_doc doc) = Some v)
  /\ (forall k, k <> "_id" -> k <> "id" -> dict_get k doc = None ->
        dict_get k (serialize_doc doc) = None)
  /\ (dict_get "_id" doc = None \/ dict_get "id" doc = None ->
      serialize_doc doc = map transport_field doc
      /\ dict_get "id" (serialize_doc doc)
         = match dict_get "_id" doc with
           | Some v => Some (VStr (py_str v))
           | None => option_map transport_value (dict_get "id" doc)
           end).
Proof.
  intros Hwf.
  split.
  { apply dict_get_None. destruct (serialize_doc_ready doc) as [_ [Hno _]]. exact Hno. }
  split.
  { intros k d H1 H2 Hget. rewrite (serialize_doc_other doc k Hwf H1 H2), Hget.
    reflexivity. }
  split.
  { intros k v H1 H2 Hv Hget. rewrite (serialize_doc_other doc k Hwf H1 H2), Hget.
    destruct v; simpl in Hv; try discriminate; reflexivity. }
  split.
  { intros k H1 H2 Hget. rewrite (serialize_doc_other doc k Hwf H1 H2), Hget.
    reflexivity. }
  intros Hone.
  assert (Hkeys : ~ In "_id" (dict_keys doc) \/ ~ In "id" (dict_keys doc)).
  { destruct Hone as [H | H]; [left | right]; apply dict_get_None; exact H. }
  rewrite (serialize_doc_fieldwise doc Hwf Hkeys).
  split; [reflexivity |].
  destruct (dict_get "_id" doc) as [v |] eqn:Hnative.
  - destruct Hone as [H | H]; [discriminate |].
    rewrite transported_id by (apply dict_get_None; exact H).
    rewrite Hnative. reflexivity.
  - apply transported_own_id. apply dict_get_None. exact Hnative.
Qed.

(** C10. [serialize_doc] is idempotent: for every document its output has no
    [_id] key and no datetime value, and serialising the output again returns
    it unchanged. *)
Theorem serialize_doc_idempotent (doc : document) :
  ~ In "_id" (dict_keys (serialize_doc doc))
  /\ Forall (fun kv => is_datetime (snd kv) = false) (serialize_doc doc)
  /\ serialize_doc (serialize_doc doc) = serialize_doc doc.
Proof.
  pose proof (serialize_doc_ready doc) as Hready.
  destruct Hready as [Hwf [Hno Hdt]].
  split; [exact Hno |].
  split; [exact Hdt |].
  apply serialize_ready_id. repeat split; assumption.
Qed.

(* ===================================================================== *)
(** ** The store                                                          *)
(* ===================================================================== *)

Lemma is_Exception_all (e : exn) : is_Exception e = true.
Proof. destruct e; reflexivity. Qed.

Lemma coll_docs_insert_eq (c : string) (doc : document) (d : Database) :
  coll_docs (insert_doc c doc d) c = coll_docs d c ++ [doc].
Proof.
  unfold coll_docs at 1. unfold insert_doc. simpl.
  rewrite lookup_insert_eq. reflexivity.
Qed.

Lemma coll_docs_insert_ne (c c' : string) (doc : document) (d : Database) :
  c <> c' -> coll_docs (insert_doc c doc d) c' = coll_docs d c'.
Proof.
  intros Hne. unfold coll_docs, insert_doc. simpl.
  rewrite lookup_insert_ne by exact Hne. reflexivity.
Qed.

Lemma create_document_ok (c : string) (record : document) (w : World) (d : Database) :
  db w = Some d ->
  failing d m_insert_one c = None ->
  create_document c record w
  = (Ok (oid_hex (new_oid (next_oid d))),
     {| db := Some (insert_doc c (stored_document d record) d);
        ObjectId := ObjectId w;
        trace := trace w ++ [OpInsertOne c (stored_document d record)] |}).
Proof.
  intros Hdb Hok. unfold create_document. rewrite Hdb, Hok. reflexivity.
Qed.

Lemma filter_matches_nil (docs : list document) :
  List.filter (matches []) docs = docs.
Proof.
  induction docs as [|doc rest IH]; simpl; [reflexivity | rewrite IH; reflexivity].
Qed.

Lemma get_documents_all (c : string) (limit : Z) (w : World) (d : Database) :
  db w = Some d ->
  failing d m_find c = None ->
  (Z.of_nat (List.length (coll_docs d c)) <= limit)%Z ->
  get_documents c [] limit w = (Ok (coll_docs d c), log_op (OpFind c [] limit) w).
Proof.
  intros Hdb Hok Hlimit. unfold get_documents. rewrite Hdb, Hok.
  rewrite filter_matches_nil, firstn_all2 by lia. reflexivity.
Qed.

(* ===================================================================== *)
(** ** The referential checks of [create_appointment]                     *)
(* ===================================================================== *)

(** Whatever the checks do, the [try] statement around them ends normally. *)
Lemma swallowed_checks (body : M unit) (w : World) :
  try_except body (fun _ => ret tt) w = (Ok tt, snd (body w)).
Proof.
  unfold try_except, ret. destruct (body w) as [[[] | e] w']; simpl.
  - reflexivity.
  - rewrite is_Exception_all. reflexivity.
Qed.

Lemma referential_checks_without_bson (payload : Appointment.t) (w : World) :
  ObjectId w = None -> referential_checks payload w = (Ok tt, w).
Proof.
  intros Hnone. destruct w as [dbw oi tr]. simpl in Hnone. subst oi.
  reflexivity.
Qed.

Lemma reference_exists_unreadable (coll ref : string) (w : World)
    (make : string -> Result bson_oid) (e : exn) :
  ObjectId w = Some make -> make ref = Raise e ->
  reference_exists coll ref w = (Raise e, w).
Proof.
  intros Hmake Hraise. destruct w as [dbw oi tr]. simpl in Hmake. subst oi.
  unfold reference_exists, bind, get_ObjectId, lift. simpl. rewrite Hraise.
  reflexivity.
Qed.

Lemma reference_exists_looked_up (coll ref : string) (w : World) (d : Database)
    (make : string -> Result bson_oid) (o : bson_oid) :
  db w = Some d -> ObjectId w = Some make -> make ref = Ok o ->
  exists r, reference_exists coll ref w
            = (r, log_op (OpFindOne coll [("_id", VObjectId o)]) w).
Proof.
  intros Hdb Hmake Hok. destruct w as [dbw oi tr]. simpl in Hdb, Hmake. subst dbw oi.
  unfold reference_exists, find_one, store_call, get_ObjectId, lift, ret, bind.
  simpl. rewrite Hok.
  destruct (failing d m_find_one coll); eexists; reflexivity.
Qed.

(** The world after the checks differs from the one before by the lookups in
    the trace. *)
Lemma referential_checks_world (payload : Appointment.t) (w : World) (d : Database) :
  db w = Some d ->
  exists lookups,
    snd (referential_checks payload w)
    = {| db := db w; ObjectId := ObjectId w; trace := trace w ++ lookups |}.
Proof.
  intros Hdb. destruct w as [dbw oi tr]. simpl in Hdb. subst dbw.
  unfold referential_checks, reference_exists, find_one, store_call,
    get_ObjectId, lift, ret, raise, log_op, bind. simpl.
  destruct oi as [make |]; simpl.
  - destruct (make (Appointment.patient_id payload)) as [o1 | e1]; simpl.
    + destruct (failing d m_find_one "patient"); simpl.
      * eexists; reflexivity.
      * destruct (make (Appointment.doctor_id payload)) as [o2 | e2]; simpl.
        -- destruct (failing d m_find_one "doctor"); simpl.
           ++ exists [OpFindOne "patient" [("_id", VObjectId o1)];
                      OpFindOne "doctor" [("_id", VObjectId o2)]].
              rewrite <- app_assoc. reflexivity.
           ++ exists [OpFindOne "patient" [("_id", VObjectId o1)];
                      OpFindOne "doctor" [("_id", VObjectId o2)]].
              destruct (negb _); [| destruct (negb _)]; simpl;
                rewrite <- app_assoc; reflexivity.
        -- eexists; reflexivity.
    + exists []. rewrite app_nil_r. reflexivity.
  - exists []. rewrite app_nil_r. reflexivity.
Qed.

(** With a connection, [create_appointment] always goes on to the insert: its
    outcome is the outcome of [create_document] after the checks. *)
Lemma create_appointment_connected (payload : Appointment.t) (w : World) (d : Database) :
  db w = Some d ->
  create_appointment payload w
  = (let* appt_id := create_document "appointment" (Appointment.model_dump payload) in
     ret (id_reply appt_id)) (snd (referential_checks payload w)).
Proof.
  intros Hdb. unfold create_appointment at 1.
  unfold bind at 1. unfold get_db. rewrite Hdb.
  unfold bind at 1. rewrite swallowed_checks. reflexivity.
Qed.

Lemma referential_checks_unreadable (payload : Appointment.t) (w : World)
    (d : Database) (make : string -> Result bson_oid) :
  db w = Some d ->
  ObjectId w = Some make ->
  (exists e, make (Appointment.patient_id payload) = Raise e)
  \/ (exists e, make (Appointment.doctor_id payload) = Raise e) ->
  exists lookups,
    snd (referential_checks payload w)
    = {| db := db w; ObjectId := ObjectId w; trace := trace w ++ lookups |}
    /\ (lookups = []
        \/ exists o, make (Appointment.patient_id payload) = Ok o
                     /\ lookups = [OpFindOne "patient" [("_id", VObjectId o)]]).
Proof.
  intros Hdb Hmake Hbad. destruct w as [dbw oi tr]. simpl in Hdb, Hmake. subst dbw oi.
  unfold referential_checks, reference_exists, find_one, store_call,
    get_ObjectId, lift, ret, raise, log_op, bind. simpl.
  destruct (make (Appointment.patient_id payload)) as [o1 | e1] eqn:Hpid; simpl.
  - destruct Hbad as [[e He] | [e He]]; [discriminate |].
    exists [OpFindOne "patient" [("_id", VObjectId o1)]].
    split; [| right; exists o1; split; reflexivity].
    destruct (failing d m_find_one "patient"); simpl; [reflexivity |].
    rewrite He. reflexivity.
  - exists []. split; [rewrite app_nil_r; reflexivity | left; reflexivity].
Qed.

(** The insert that follows the checks, when the store takes the write. *)
Lemma insert_after_checks (payload : Appointment.t) (w : World) (d : Database)
    (lookups : list store_op) :
  db w = Some d ->
  failing d m_insert_one "appointment" = None ->
  (let* appt_id := create_document "appointment" (Appointment.model_dump payload) in
   ret (id_reply appt_id))
    {| db := db w; ObjectId := ObjectId w; trace := trace w ++ lookups |}
  = (Ok (id_reply (oid_hex (new_oid (next_oid d)))),
     {| db := Some (insert_doc "appointment"
                      (stored_document d (Appointment.model_dump payload)) d);
        ObjectId := ObjectId w;
        trace := trace w ++ lookups
                   ++ [OpInsertOne "appointment"
                         (stored_document d (Appointment.model_dump payload))] |}).
Proof.
  intros Hdb Hok. unfold bind.
  rewrite (create_document_ok "appointment" _ _ d) by (simpl; assumption).
  simpl. rewrite <- app_assoc. reflexivity.
Qed.

(** The only HTTP error [create_appointment] raises is the 500 of a missing
    connection: with a connection no request is answered 404. *)
Lemma create_appointment_http_error (payload : Appointment.t) (w : World)
    (code : Z) (detail : string) :
  fst (create_appointment payload w) = Raise (HTTPException code detail) ->
  db w = None /\ code = 500%Z.
Proof.
  destruct (db w) as [d |] eqn:Hdb.
  - rewrite (create_appointment_connected payload w d Hdb).
    destruct (referential_checks_world payload w d Hdb) as [lookups Hw].
    rewrite Hw. unfold bind, create_document. simpl. rewrite Hdb.
    destruct (failing d m_insert_one "appointment"); simpl; discriminate.
  - unfold create_appointment, bind, get_db. rewrite Hdb. simpl.
    intros H. inversion H. split; reflexivity.
Qed.

Lemma get_stats_first_failure (w : World) (d : Database) (msg : string) :
  db w = Some d ->
  first_count_failure d = Some msg ->
  exists counts,
    get_stats w
    = (Raise (HTTPException 500 msg),
       {| db := db w; ObjectId := ObjectId w; trace := trace w ++ counts |}).
Proof.
  intros Hdb Hfail. destruct w as [dbw oi tr]. simpl in Hdb. subst dbw.
  unfold first_count_failure in Hfail.
  unfold get_stats, count_all, count_documents, store_call, try_except, get_db,
    ret, raise, log_op, bind. simpl.
  destruct (failing d m_count_documents "patient") as [m1 |]; simpl.
  { inversion Hfail; subst. eexists; reflexivity. }
  destruct (failing d m_count_documents "doctor") as [m2 |]; simpl.
  { inversion Hfail; subst. eexists. rewrite <- app_assoc. reflexivity. }
  rewrite Hfail. simpl. eexists. rewrite <- !app_assoc. reflexivity.
Qed.

(* ===================================================================== *)
(** ** Properties of the appointment and statistics handlers              *)
(* ===================================================================== *)

(** C1. POST /appointments with a well-formed [patient_id] that no stored
    patient has: the checks raise 404 "Patient not found" inside the [try]
    statement, whose [except Exception] clause catches it, so the handler
    answers with the identifier of a new appointment and the appointment is in
    the collection. *)
Theorem create_appointment_unknown_patient_is_inserted :
  bson_ObjectId unknown_patient_id = Ok (mk_oid unknown_patient_id)
  /\ world_docs world_with_doctor "patient" = []
  /\ fst (referential_checks appointment_unknown_patient world_with_doctor)
     = Raise (HTTPException 404 "Patient not found")
  /\ fst (create_appointment appointment_unknown_patient world_with_doctor)
     = Ok (id_reply "000000000000000000000001")
  /\ world_docs (snd (create_appointment appointment_unknown_patient world_with_doctor))
       "appointment"
     = [ Appointment.model_dump appointment_unknown_patient
           ++ [("_id", VObjectId (mk_oid "000000000000000000000001"))] ].
Proof. vm_compute. repeat split; reflexivity. Qed.

(** C2. POST /appointments with a [patient_id] or a [doctor_id] that
    [ObjectId] does not take: with a connection and a store that takes the
    write, no existence test decides anything and no error is returned; the
    handler answers with the new identifier, the appointment is at the end of
    its collection, and the patients and doctors are as before.  The store saw
    no lookup at all when [patient_id] is the unreadable one, the lookup of the
    patient alone otherwise, and then the insert. *)
Theorem create_appointment_unreadable_reference_inserts
    (payload : Appointment.t) (w : World) (d : Database)
    (make : string -> Result bson_oid) :
  db w = Some d ->
  ObjectId w = Some make ->
  failing d m_insert_one "appointment" = None ->
  (exists e, make (Appointment.patient_id payload) = Raise e)
  \/ (exists e, make (Appointment.doctor_id payload) = Raise e) ->
  let doc := stored_document d (Appointment.model_dump payload) in
  let d' := insert_doc "appointment" doc d in
  exists lookups,
    create_appointment payload w
    = (Ok (id_reply (oid_hex (new_oid (next_oid d)))),
       {| db := Some d';
          ObjectId := ObjectId w;
          trace := trace w ++ lookups ++ [OpInsertOne "appointment" doc] |})
    /\ (lookups = []
        \/ exists o, make (Appointment.patient_id payload) = Ok o
                     /\ lookups = [OpFindOne "patient" [("_id", VObjectId o)]])
    /\ coll_docs d' "appointment" = coll_docs d "appointment" ++ [doc]
    /\ coll_docs d' "patient" = coll_docs d "patient"
    /\ coll_docs d' "doctor" = coll_docs d "doctor".
Proof.
  intros Hdb Hmake Hok Hbad doc d'.
  destruct (referential_checks_unreadable payload w d make Hdb Hmake Hbad)
    as [lookups [Hw Hlookups]].
  exists lookups.
  split; [| split; [exact Hlookups | split; [| split]]].
  - rewrite (create_appointment_connected payload w d Hdb), Hw.
    apply insert_after_checks; assumption.
  - apply coll_docs_insert_eq.
  - apply coll_docs_insert_ne. discriminate.
  - apply coll_docs_insert_ne. discriminate.
Qed.

(** C9. When [ObjectId] is [None], POST /appointments with a connection
    performs no lookup and raises nothing in its checks, so it always goes on
    to the insert: its outcome is that of [create_document], and when the
    store takes the write the appointment is at the end of its collection and
    the insert is the only call the store saw. *)
Theorem create_appointment_without_bson_inserts
    (payload : Appointment.t) (w : World) (d : Database) :
  db w = Some d ->
  ObjectId w = None ->
  let doc := stored_document d (Appointment.model_dump payload) in
  let d' := insert_doc "appointment" doc d in
  referential_checks payload w = (Ok tt, w)
  /\ create_appointment payload w
     = (let* appt_id := create_document "appointment" (Appointment.model_dump payload) in
        ret (id_reply appt_id)) w
  /\ (forall code detail,
        fst (create_appointment payload w) <> Raise (HTTPException code detail))
  /\ (failing d m_insert_one "appointment" = None ->
      create_appointment payload w
      = (Ok (id_reply (oid_hex (new_oid (next_oid d)))),
         {| db := Some d';
            ObjectId := ObjectId w;
            trace := trace w ++ [OpInsertOne "appointment" doc] |})
      /\ coll_docs d' "appointment" = coll_docs d "appointment" ++ [doc]).
Proof.
  intros Hdb Hnone doc d'.
  pose proof (referential_checks_without_bson payload w Hnone) as Hchecks.
  assert (Hrun : create_appointment payload w
                 = (let* appt_id := create_document "appointment"
                                      (Appointment.model_dump payload) in
                    ret (id_reply appt_id)) w).
  { rewrite (create_appointment_connected payload w d Hdb), Hchecks. reflexivity. }
  split; [exact Hchecks |].
  split; [exact Hrun |].
  split.
  - intros code detail H.
    destruct (create_appointment_http_error payload w code detail H) as [Hno _].
    congruence.
  - intros Hok. split; [| apply coll_docs_insert_eq].
    rewrite Hrun. unfold bind.
    rewrite (create_document_ok "appointment" _ w d Hdb Hok). reflexivity.
Qed.

(** C5. Without a connection ([db] is [None]) POST /appointments and
    GET /stats raise [HTTPException] 500 "Database not available", answered
    with status 500, before any call to the store: the world, and with it the
    trace of store calls, is the one before the request. *)
Theorem store_unavailable_is_server_error
    (payload : Appointment.t) (oi : option (string -> Result bson_oid))
    (tr : list store_op) :
  let w := {| db := None; ObjectId := oi; trace := tr |} in
  create_appointment payload w
  = (Raise (HTTPException 500 "Database not available"), w)
  /\ get_stats w = (Raise (HTTPException 500 "Database not available"), w)
  /\ status (respond CDocument (fst (create_appointment payload w))) = 500%Z
  /\ status (respond CDocument (fst (get_stats w))) = 500%Z
  /\ world_docs (snd (create_appointment payload w)) "appointment" = []
  /\ trace (snd (create_appointment payload w)) = tr
  /\ trace (snd (get_stats w)) = tr.
Proof. repeat split; reflexivity. Qed.

(** C6, as the code has it. A store error raised by a count during GET /stats
    is caught by the handler and translated into a server error (500) whose
    detail is the message of that error in full: nothing is truncated, and
    nothing is written. *)
Theorem get_stats_reports_store_error (w : World) (d : Database) (msg : string) :
  db w = Some d ->
  first_count_failure d = Some msg ->
  fst (get_stats w) = Raise (HTTPException 500 msg)
  /\ respond CDocument (fst (get_stats w)) = mk_response 500 (CDetail msg)
  /\ db (snd (get_stats w)) = db w.
Proof.
  intros Hdb Hfail.
  destruct (get_stats_first_failure w d msg Hdb Hfail) as [counts Hrun].
  rewrite Hrun. repeat split; reflexivity.
Qed.

(* ===================================================================== *)
(** ** Validation                                                         *)
(* ===================================================================== *)

Lemma errors_of_vap {A B : Type} (f : validated (A -> B)) (x : validated A) :
  errors_of (f <*> x) = errors_of f ++ errors_of x.
Proof.
  destruct f as [g | e1], x as [a | e2]; simpl; try reflexivity.
  rewrite app_nil_r. reflexivity.
Qed.

Lemma invalid_of_error {A : Type} (r : validated A) (e : verror) :
  In e (errors_of r) -> exists errs, r = Invalid errs /\ In e errs.
Proof.
  destruct r as [a | errs]; simpl; intros Hin.
  - destruct Hin.
  - exists errs. split; [reflexivity | exact Hin].
Qed.

Lemma required_field_missing {A : Type} (name : string) (check : json -> string + A)
    (body : dict json) :
  dict_get name body = None ->
  errors_of (required_field name check body) = [(name, "missing")].
Proof. intros H. unfold required_field. rewrite H. reflexivity. Qed.

Lemma missing_in_Patient (px : coercions) (body : dict json) (f : string) :
  In f Patient.required_fields -> dict_get f body = None ->
  In (f, "missing") (errors_of (validate_Patient px body)).
Proof.
  intros Hin Hget. unfold validate_Patient. rewrite !errors_of_vap.
  rewrite !in_app_iff.
  destruct Hin as [<- | [<- | []]];
    rewrite (required_field_missing _ _ _ Hget); simpl; tauto.
Qed.

Lemma missing_in_Doctor (px : coercions) (body : dict json) (f : string) :
  In f Doctor.required_fields -> dict_get f body = None ->
  In (f, "missing") (errors_of (validate_Doctor px body)).
Proof.
  intros Hin Hget. unfold validate_Doctor. rewrite !errors_of_vap.
  rewrite !in_app_iff.
  destruct Hin as [<- | [<- | [<- | []]]];
    rewrite (required_field_missing _ _ _ Hget); simpl; tauto.
Qed.

Lemma missing_in_Appointment (px : coercions) (body : dict json) (f : string) :
  In f Appointment.required_fields -> dict_get f body = None ->
  In (f, "missing") (errors_of (validate_Appointment px body)).
Proof.
  intros Hin Hget. unfold validate_Appointment. rewrite !errors_of_vap.
  rewrite !in_app_iff.
  destruct Hin as [<- | [<- | [<- | []]]];
    rewrite (required_field_missing _ _ _ Hget); simpl; tauto.
Qed.

(** A body that fails validation is answered 422 and leaves the world as it
    was. *)
Lemma post_route_invalid {T : Type} (validate : dict json -> validated T)
    (handler : T -> M document) (body : dict json) (w : World) (errs : list verror) :
  validate body = Invalid errs ->
  post_route validate handler body w = (mk_response 422 (CValidation errs), w).
Proof. intros H. unfold post_route. rewrite H. reflexivity. Qed.

Lemma required_field_set_ne {A : Type} (name k : string) (j : json)
    (check : json -> string + A) (body : dict json) :
  k <> name ->
  required_field name check (dict_set k j body) = required_field name check body.
Proof.
  intros Hne. unfold required_field. rewrite dict_get_set_ne by exact Hne.
  reflexivity.
Qed.

Lemma default_field_set_ne {A : Type} (name k : string) (j : json) (default : A)
    (check : json -> string + A) (body : dict json) :
  k <> name ->
  default_field name default check (dict_set k j body)
  = default_field name default check body.
Proof.
  intros Hne. unfold default_field. rewrite dict_get_set_ne by exact Hne.
  reflexivity.
Qed.

Lemma duration_field_absent (px : coercions) (body : dict json) :
  dict_get "duration_minutes" body = None ->
  duration_field px body = Valid 30%Z.
Proof. intros H. unfold duration_field, default_field. rewrite H. reflexivity. Qed.

Lemma duration_field_number (px : coercions) (body : dict json) (z : Z) :
  duration_field px (dict_set "duration_minutes" (JNumber z) body)
  = if (z <? 5)%Z then Invalid [("duration_minutes", "greater_than_equal")]
    else if (240 <? z)%Z then Invalid [("duration_minutes", "less_than_equal")]
    else Valid z.
Proof.
  unfold duration_field, default_field. rewrite dict_get_set_eq.
  unfold check_int_range, Appointment.duration_ge, Appointment.duration_le.
  destruct (z <? 5)%Z; [reflexivity |].
  destruct (240 <? z)%Z; reflexivity.
Qed.

(** The fields of an appointment body other than [duration_minutes] do not
    see a change of [duration_minutes]. *)
Lemma validate_Appointment_set_duration (px : coercions) (body : dict json) (j : json) :
  validate_Appointment px (dict_set "duration_minutes" j body)
  = Valid Appointment.mk
      <*> required_field "patient_id" (check_str px) body
      <*> required_field "doctor_id" (check_str px) body
      <*> required_field "start_time" (check_datetime px) body
      <*> duration_field px (dict_set "duration_minutes" j body)
      <*> default_field "reason" None (check_optional (check_str px)) body
      <*> default_field "status" Appointment.status_default (check_str px) body.
Proof.
  unfold validate_Appointment.
  rewrite !required_field_set_ne by discriminate.
  rewrite !default_field_set_ne by discriminate.
  reflexivity.
Qed.

(** An integer outside the bounds is an error on [duration_minutes], whatever
    the other fields of the body are. *)
Lemma duration_out_of_range_error (px : coercions) (body : dict json) (z : Z) :
  (z < 5 \/ 240 < z)%Z ->
  exists kind,
    In ("duration_minutes", kind)
      (errors_of (validate_Appointment px
                    (dict_set "duration_minutes" (JNumber z) body))).
Proof.
  intros Hout. rewrite validate_Appointment_set_duration, duration_field_number.
  rewrite !errors_of_vap.
  destruct (Z.ltb_spec z 5); [| destruct (Z.ltb_spec 240 z); [| lia]].
  - exists "greater_than_equal". rewrite !in_app_iff. simpl. tauto.
  - exists "less_than_equal". rewrite !in_app_iff. simpl. tauto.
Qed.

(** A body that is valid without [duration_minutes], with an integer put in
    the field. *)
Lemma validate_Appointment_with_duration
    (px : coercions) (body : dict json) (a : Appointment.t) (z : Z) :
  dict_get "duration_minutes" body = None ->
  validate_Appointment px body = Valid a ->
  Appointment.duration_minutes a = 30%Z
  /\ validate_Appointment px (dict_set "duration_minutes" (JNumber z) body)
     = if (z <? 5)%Z then Invalid [("duration_minutes", "greater_than_equal")]
       else if (240 <? z)%Z then Invalid [("duration_minutes", "less_than_equal")]
       else Valid (Appointment.with_duration z a).
Proof.
  intros Habsent Hvalid.
  rewrite validate_Appointment_set_duration, duration_field_number.
  unfold validate_Appointment in Hvalid.
  rewrite (duration_field_absent px body Habsent) in Hvalid.
  destruct (required_field "patient_id" (check_str px) body) as [f1 | e1],
    (required_field "doctor_id" (check_str px) body) as [f2 | e2],
    (required_field "start_time" (check_datetime px) body) as [f3 | e3],
    (default_field "reason" None (check_optional (check_str px)) body) as [f5 | e5],
    (default_field "status" Appointment.status_default (check_str px) body) as [f6 | e6];
    simpl in Hvalid; try discriminate.
  inversion Hvalid; subst a. split; [reflexivity |].
  destruct (z <? 5)%Z; [reflexivity |].
  destruct (240 <? z)%Z; reflexivity.
Qed.

(** C4. Appointment validation and [duration_minutes]: an integer below 5 or
    above 240 in the field is rejected, with an error on [duration_minutes],
    whatever the rest of the body is; a body that is valid without the field
    gives the duration 30, and with an integer in the field it is accepted
    exactly when the integer lies in [5, 240], the bounds included, the model
    then holding that integer. *)
Theorem duration_minutes_accepted_in_range (px : coercions) (body : dict json) :
  (forall z : Z,
     (z < 5 \/ 240 < z)%Z ->
     exists errs kind,
       validate_Appointment px (dict_set "duration_minutes" (JNumber z) body)
       = Invalid errs
       /\ In ("duration_minutes", kind) errs)
  /\ (forall a : Appointment.t,
     dict_get "duration_minutes" body = None ->
     validate_Appointment px body = Valid a ->
     Appointment.duration_minutes a = 30%Z
     /\ (forall z : Z,
          let body' := dict_set "duration_minutes" (JNumber z) body in
          ((5 <= z <= 240)%Z ->
             validate_Appointment px body' = Valid (Appointment.with_duration z a))
          /\ (is_valid (validate_Appointment px body') = true
              <-> (5 <= z <= 240)%Z))).
Proof.
  split.
  - intros z Hout.
    destruct (duration_out_of_range_error px body z Hout) as [kind Hin].
    destruct (invalid_of_error _ _ Hin) as [errs [Hinv Herr]].
    exists errs, kind. split; assumption.
  - intros a Habsent Hvalid.
    split; [exact (proj1 (validate_Appointment_with_duration px body a 0 Habsent Hvalid)) |].
    intros z body'. subst body'.
    destruct (validate_Appointment_with_duration px body a z Habsent Hvalid)
      as [_ Hshape].
    rewrite Hshape.
    destruct (Z.ltb_spec z 5); [| destruct (Z.ltb_spec 240 z)].
    + split; [intros; lia |]. simpl. split; [discriminate | intros; lia].
    + split; [intros; lia |]. simpl. split; [discriminate | intros; lia].
    + split; [intros _; reflexivity |]. simpl. split; [intros _; lia | reflexivity].
Qed.

(** C7. A POST whose body lacks a required field of its model (a Doctor body
    without [department], say) is answered 422 with an error naming the field
    as missing; the handler is not run, so the store sees no call and the
    world (every collection, every count, the trace) is the one before the
    request. *)
Theorem missing_required_field_is_rejected
    (px : coercions) (body : dict json) (w : World) (f : string) :
  dict_get f body = None ->
  (In f Patient.required_fields ->
     exists errs, post_patients px body w = (mk_response 422 (CValidation errs), w)
                  /\ In (f, "missing") errs)
  /\ (In f Doctor.required_fields ->
     exists errs, post_doctors px body w = (mk_response 422 (CValidation errs), w)
                  /\ In (f, "missing") errs)
  /\ (In f Appointment.required_fields ->
     exists errs, post_appointments px body w = (mk_response 422 (CValidation errs), w)
                  /\ In (f, "missing") errs).
Proof.
  intros Hget. split; [| split]; intros Hin.
  - destruct (invalid_of_error _ _ (missing_in_Patient px body f Hin Hget))
      as [errs [Hinv Herr]].
    exists errs. split; [apply post_route_invalid; exact Hinv | exact Herr].
  - destruct (invalid_of_error _ _ (missing_in_Doctor px body f Hin Hget))
      as [errs [Hinv Herr]].
    exists errs. split; [apply post_route_invalid; exact Hinv | exact Herr].
  - destruct (invalid_of_error _ _ (missing_in_Appointment px body f Hin Hget))
      as [errs [Hinv Herr]].
    exists errs. split; [apply post_route_invalid; exact Hinv | exact Herr].
Qed.

(* ===================================================================== *)
(** ** Insert, then list                                                  *)
(* ===================================================================== *)

Lemma optional_str_not_datetime (o : option string) :
  is_datetime (optional_str o) = false.
Proof. destruct o; reflexivity. Qed.

Lemma Patient_plain_record (p : Patient.t) : plain_record (Patient.model_dump p).
Proof.
  unfold plain_record, dict_wf, Patient.model_dump. simpl.
  split; [| split; [| split]].
  - repeat (constructor; [simpl; intuition discriminate |]). constructor.
  - intuition discriminate.
  - intuition discriminate.
  - repeat (constructor; [simpl; try apply optional_str_not_datetime; reflexivity |]).
    constructor.
Qed.

Lemma Doctor_plain_record (dr : Doctor.t) : plain_record (Doctor.model_dump dr).
Proof.
  unfold plain_record, dict_wf, Doctor.model_dump. simpl.
  split; [| split; [| split]].
  - repeat (constructor; [simpl; intuition discriminate |]). constructor.
  - intuition discriminate.
  - intuition discriminate.
  - repeat (constructor; [simpl; try apply optional_str_not_datetime; reflexivity |]).
    constructor.
Qed.

(** The documents that the service stores for its three record kinds hold
    each key once and have no field called [id]. *)
Lemma stored_records_have_no_id_field (d : Database) :
  (forall p : Patient.t,
     dict_wf (stored_document d (Patient.model_dump p))
     /\ dict_get "id" (stored_document d (Patient.model_dump p)) = None)
  /\ (forall dr : Doctor.t,
     dict_wf (stored_document d (Doctor.model_dump dr))
     /\ dict_get "id" (stored_document d (Doctor.model_dump dr)) = None)
  /\ (forall a : Appointment.t,
     dict_wf (stored_document d (Appointment.model_dump a))
     /\ dict_get "id" (stored_document d (Appointment.model_dump a)) = None).
Proof.
  split; [| split]; intros r; (split; [| reflexivity]);
    apply dict_set_wf; unfold dict_wf; simpl; distinct_keys.
Qed.

(** The stored form of a plain record serialises to the record followed by
    its [id]. *)
Lemma stored_record_serialized (d : Database) (record : document) :
  plain_record record ->
  serialize_doc (stored_document d record)
  = record ++ [("id", VStr (oid_hex (new_oid (next_oid d))))].
Proof.
  intros [Hwf [Hno [Hid Hdt]]]. unfold stored_document.
  rewrite serialize_doc_map.
  - rewrite (dict_set_fresh _ _ _ Hno), map_app.
    rewrite (transport_ready_fixed record Hno Hdt). reflexivity.
  - apply dict_set_wf. exact Hwf.
  - intros Hin. apply dict_set_keys in Hin. destruct Hin as [Hin | Hin].
    + discriminate.
    + exact (Hid Hin).
Qed.

Lemma insert_then_list (c : string) (record : document) (w : World) (d : Database)
    (limit : Z) :
  db w = Some d ->
  failing d m_insert_one c = None ->
  failing d m_find c = None ->
  (Z.of_nat (List.length (coll_docs d c)) < limit)%Z ->
  plain_record record ->
  exists w1 w2,
    (let* new_id := create_document c record in ret (id_reply new_id)) w
    = (Ok (id_reply (oid_hex (new_oid (next_oid d)))), w1)
    /\ (let* docs := get_documents c [] limit in ret (map serialize_doc docs)) w1
       = (Ok (map serialize_doc (coll_docs d c)
                ++ [record ++ [("id", VStr (oid_hex (new_oid (next_oid d))))]]),
          w2).
Proof.
  intros Hdb Hins Hfind Hlimit Hplain.
  eexists _, _. split.
  - unfold bind. rewrite (create_document_ok c record w d Hdb Hins). reflexivity.
  - unfold bind.
    rewrite (get_documents_all c limit _ (insert_doc c (stored_document d record) d)).
    + unfold ret. rewrite coll_docs_insert_eq, map_app. simpl.
      rewrite (stored_record_serialized d record Hplain). reflexivity.
    + reflexivity.
    + exact Hfind.
    + rewrite coll_docs_insert_eq, length_app. simpl. lia.
Qed.

(** C8. A valid Patient or Doctor payload is posted and the list is read
    back, on a store that takes both calls and with a limit above the number
    of records already there: the list is the earlier records followed by one
    record for the payload, which is the payload's fields, each unchanged,
    followed by the one field [id] holding the identifier that the POST
    returned; the payload itself has no field [id]. *)
Theorem post_then_get_round_trip (w : World) (d : Database) (limit : Z) :
  db w = Some d ->
  (forall p : Patient.t,
     failing d m_insert_one "patient" = None ->
     failing d m_find "patient" = None ->
     (Z.of_nat (List.length (coll_docs d "patient")) < limit)%Z ->
     exists new_id w1 w2,
       create_patient p w = (Ok (id_reply new_id), w1)
       /\ list_patients limit w1
          = (Ok (map serialize_doc (coll_docs d "patient")
                   ++ [Patient.model_dump p ++ [("id", VStr new_id)]]), w2)
       /\ new_id = oid_hex (new_oid (next_oid d))
       /\ dict_get "id" (Patient.model_dump p) = None)
  /\ (forall dr : Doctor.t,
     failing d m_insert_one "doctor" = None ->
     failing d m_find "doctor" = None ->
     (Z.of_nat (List.length (coll_docs d "doctor")) < limit)%Z ->
     exists new_id w1 w2,
       create_doctor dr w = (Ok (id_reply new_id), w1)
       /\ list_doctors limit w1
          = (Ok (map serialize_doc (coll_docs d "doctor")
                   ++ [Doctor.model_dump dr ++ [("id", VStr new_id)]]), w2)
       /\ new_id = oid_hex (new_oid (next_oid d))
       /\ dict_get "id" (Doctor.model_dump dr) = None).
Proof.
  intros Hdb. split.
  - intros p Hins Hfind Hlimit.
    destruct (insert_then_list "patient" (Patient.model_dump p) w d limit
                Hdb Hins Hfind Hlimit (Patient_plain_record p))
      as [w1 [w2 [Hpost Hget]]].
    exists (oid_hex (new_oid (next_oid d))), w1, w2.
    split; [exact Hpost |]. split; [exact Hget |]. split; reflexivity.
  - intros dr Hins Hfind Hlimit.
    destruct (insert_then_list "doctor" (Doctor.model_dump dr) w d limit
                Hdb Hins Hfind Hlimit (Doctor_plain_record dr))
      as [w1 [w2 [Hpost Hget]]].
    exists (oid_hex (new_oid (next_oid d))), w1, w2.
    split; [exact Hpost |]. split; [exact Hget |]. split; reflexivity.
Qed.

(* ===================================================================== *)
(** ** The properties on the sample data                                  *)
(* ===================================================================== *)

Lemma serialize_doc_transports_fields_witness :
  dict_wf sample_stored_appointment
  /\ dict_get "id" sample_stored_appointment = None
  /\ serialize_doc sample_stored_appointment
     = map transport_field sample_stored_appointment
  /\ dict_get "id" (serialize_doc sample_stored_appointment)
     = Some (VStr unknown_patient_id)
  /\ dict_get "start_time" (serialize_doc sample_stored_appointment)
     = Some (VStr "2024-05-01T09:30:00")
  /\ dict_get "duration_minutes" (serialize_doc sample_stored_appointment)
     = Some (VInt 30).
Proof.
  assert (Hwf : dict_wf sample_stored_appointment) by (unfold dict_wf; simpl; distinct_keys).
  assert (Hid : dict_get "id" sample_stored_appointment = None) by reflexivity.
  destruct (serialize_doc_transports_fields sample_stored_appointment Hwf)
    as [_ [Hdt [Hkeep [_ Hwhole]]]].
  destruct (Hwhole (or_intror Hid)) as [Hmap Hnew].
  split; [exact Hwf |]. split; [exact Hid |]. split; [exact Hmap |].
  split; [exact Hnew |].
  split.
  - apply (Hdt "start_time" sample_datetime); [discriminate | discriminate | reflexivity].
  - apply (Hkeep "duration_minutes" (VInt 30));
      [discriminate | discriminate | reflexivity | reflexivity].
Defined.

Lemma create_appointment_unreadable_reference_inserts_witness :
  let doc := stored_document empty_database
               (Appointment.model_dump appointment_free_form_ids) in
  let d' := insert_doc "appointment" doc empty_database in
  exists lookups,
    create_appointment appointment_free_form_ids empty_world
    = (Ok (id_reply "000000000000000000000000"),
       {| db := Some d';
          ObjectId := Some bson_ObjectId;
          trace := [] ++ lookups ++ [OpInsertOne "appointment" doc] |})
    /\ (lookups = []
        \/ exists o, bson_ObjectId "patient-17" = Ok o
                     /\ lookups = [OpFindOne "patient" [("_id", VObjectId o)]])
    /\ coll_docs d' "appointment" = coll_docs empty_database "appointment" ++ [doc]
    /\ coll_docs d' "patient" = coll_docs empty_database "patient"
    /\ coll_docs d' "doctor" = coll_docs empty_database "doctor".
Proof.
  apply (create_appointment_unreadable_reference_inserts
           appointment_free_form_ids empty_world empty_database bson_ObjectId).
  - reflexivity.
  - reflexivity.
  - reflexivity.
  - left. exists (InvalidId "patient-17"). reflexivity.
Defined.

Lemma create_appointment_without_bson_inserts_witness :
  referential_checks appointment_unknown_patient world_without_bson
  = (Ok tt, world_without_bson)
  /\ fst (create_appointment appointment_unknown_patient world_without_bson)
     = Ok (id_reply "000000000000000000000000")
  /\ trace (snd (create_appointment appointment_unknown_patient world_without_bson))
     = [OpInsertOne "appointment"
          (stored_document empty_database
             (Appointment.model_dump appointment_unknown_patient))].
Proof.
  destruct (create_appointment_without_bson_inserts
              appointment_unknown_patient world_without_bson empty_database
              eq_refl eq_refl)
    as [Hchecks [_ [_ Hinsert]]].
  destruct (Hinsert eq_refl) as [Hrun _].
  split; [exact Hchecks |].
  rewrite Hrun. split; reflexivity.
Defined.

Lemma get_stats_reports_store_error_witness :
  first_count_failure
    {| collections := ∅;
       next_oid := 0;
       failing := fun m coll =>
         match m with
         | m_count_documents =>
             if String.eqb coll "doctor" then Some long_message else None
         | _ => None
         end |}
  = Some long_message
  /\ fst (get_stats world_failing_count) = Raise (HTTPException 500 long_message)
  /\ respond CDocument (fst (get_stats world_failing_count))
     = mk_response 500 (CDetail long_message).
Proof.
  split; [reflexivity |].
  destruct (get_stats_reports_store_error world_failing_count _ long_message
              eq_refl eq_refl)
    as [Hraise [Hresp _]].
  split; [exact Hraise | exact Hresp].
Defined.

(** C6, as it is stated, fails: the detail of the server error of GET /stats
    is the whole message of the store error, one hundred characters here, and
    not its first eighty. *)
Lemma get_stats_detail_is_not_truncated :
  fst (get_stats world_failing_count) = Raise (HTTPException 500 long_message)
  /\ String.length long_message = 100%nat
  /\ String.length (truncate_for_display long_message) = 80%nat
  /\ fst (get_stats world_failing_count)
     <> Raise (HTTPException 500 (truncate_for_display long_message)).
Proof.
  assert (Hrun : fst (get_stats world_failing_count)
                 = Raise (HTTPException 500 long_message)) by reflexivity.
  split; [exact Hrun |]. split; [reflexivity |]. split; [reflexivity |].
  rewrite Hrun. intros H.
  assert (Hlen : String.length long_message
                 = String.length (truncate_for_display long_message))
    by congruence.
  vm_compute in Hlen. discriminate.
Qed.

Lemma duration_minutes_accepted_in_range_witness :
  dict_get "duration_minutes" appointment_body = None
  /\ validate_Appointment sample_coercions appointment_body = Valid appointment_of_body
  /\ Appointment.duration_minutes appointment_of_body = 30%Z
  /\ validate_Appointment sample_coercions
       (dict_set "duration_minutes" (JNumber 5) appointment_body)
     = Valid (Appointment.with_duration 5 appointment_of_body)
  /\ validate_Appointment sample_coercions
       (dict_set "duration_minutes" (JNumber 240) appointment_body)
     = Valid (Appointment.with_duration 240 appointment_of_body)
  /\ is_valid (validate_Appointment sample_coercions
                 (dict_set "duration_minutes" (JNumber 4) appointment_body)) <> true
  /\ is_valid (validate_Appointment sample_coercions
                 (dict_set "duration_minutes" (JNumber 241) appointment_body)) <> true.
Proof.
  assert (Habsent : dict_get "duration_minutes" appointment_body = None) by reflexivity.
  assert (Hvalid : validate_Appointment sample_coercions appointment_body
                   = Valid appointment_of_body) by reflexivity.
  destruct (proj2 (duration_minutes_accepted_in_range sample_coercions appointment_body)
              appointment_of_body Habsent Hvalid) as [Hdefault Hrange].
  split; [exact Habsent |]. split; [exact Hvalid |]. split; [exact Hdefault |].
  split; [apply (proj1 (Hrange 5%Z)); lia |].
  split; [apply (proj1 (Hrange 240%Z)); lia |].
  split.
  - intros H. apply (proj2 (Hrange 4%Z)) in H. lia.
  - intros H. apply (proj2 (Hrange 241%Z)) in H. lia.
Defined.

Lemma missing_required_field_is_rejected_witness :
  dict_get "department" doctor_body_without_department = None
  /\ In "department" Doctor.required_fields
  /\ exists errs,
       post_doctors sample_coercions doctor_body_without_department empty_world
       = (mk_response 422 (CValidation errs), empty_world)
       /\ In ("department", "missing") errs.
Proof.
  assert (Hget : dict_get "department" doctor_body_without_department = None)
    by reflexivity.
  assert (Hin : In "department" Doctor.required_fields)
    by (simpl; right; right; left; reflexivity).
  split; [exact Hget |]. split; [exact Hin |].
  exact (proj1 (proj2 (missing_required_field_is_rejected sample_coercions
                         doctor_body_without_department empty_world "department" Hget))
           Hin).
Defined.

Lemma post_then_get_round_trip_witness :
  exists new_id w1 w2,
    create_patient sample_patient empty_world = (Ok (id_reply new_id), w1)
    /\ list_patients default_limit w1
       = (Ok (map serialize_doc (coll_docs empty_database "patient")
                ++ [Patient.model_dump sample_patient ++ [("id", VStr new_id)]]), w2)
    /\ new_id = oid_hex (new_oid (next_oid empty_database))
    /\ dict_get "id" (Patient.model_dump sample_patient) = None.
Proof.
  apply (proj1 (post_then_get_round_trip empty_world empty_database default_limit
                  eq_refl) sample_patient).
  - reflexivity.
  - reflexivity.
  - vm_compute. reflexivity.
Defined.

(* ===================================================================== *)
(** ** Further properties: the statistics route                           *)
(* ===================================================================== *)

Lemma first_count_failure_none (d : Database) :
  first_count_failure d = None ->
  failing d m_count_documents "patient" = None
  /\ failing d m_count_documents "doctor" = None
  /\ failing d m_count_documents "appointment" = None.
Proof.
  unfold first_count_failure.
  destruct (failing d m_count_documents "patient"); [discriminate |].
  destruct (failing d m_count_documents "doctor"); [discriminate |].
  intros H. repeat split. exact H.
Qed.

(** GET /stats on a connected store that answers the three counts. *)
Lemma get_stats_answered (w : World) (d : Database) :
  db w = Some d ->
  first_count_failure d = None ->
  get_stats w
  = (Ok [ ("patients", VInt (Z.of_nat (List.length (coll_docs d "patient"))));
          ("doctors", VInt (Z.of_nat (List.length (coll_docs d "doctor"))));
          ("appointments", VInt (Z.of_nat (List.length (coll_docs d "appointment")))) ],
     {| db := db w;
        ObjectId := ObjectId w;
        trace := trace w ++ [ OpCountDocuments "patient" [];
                              OpCountDocuments "doctor" [];
                              OpCountDocuments "appointment" [] ] |}).
Proof.
  intros Hdb Hnone.
  destruct (first_count_failure_none d Hnone) as [H1 [H2 H3]].
  destruct w as [dbw oi tr]. simpl in Hdb. subst dbw.
  unfold get_stats, count_all, count_documents, store_call, try_except, get_db,
    ret, raise, log_op, bind. simpl.
  rewrite H1. simpl. rewrite H2. simpl. rewrite H3. simpl.
  rewrite !filter_matches_nil, <- !app_assoc. reflexivity.
Qed.

(** X1. On a connected store that answers the three counts, GET /stats is
    answered 200 with the number of documents of the patient, doctor and
    appointment collections, in this order of keys, after exactly three count
    calls, and leaves the database as it was. *)
Theorem get_stats_counts_collections (w : World) (d : Database) :
  db w = Some d ->
  first_count_failure d = None ->
  let counts :=
    [ ("patients", VInt (Z.of_nat (List.length (coll_docs d "patient"))));
      ("doctors", VInt (Z.of_nat (List.length (coll_docs d "doctor"))));
      ("appointments", VInt (Z.of_nat (List.length (coll_docs d "appointment")))) ] in
  get_stats w
  = (Ok counts,
     {| db := db w;
        ObjectId := ObjectId w;
        trace := trace w ++ [ OpCountDocuments "patient" [];
                              OpCountDocuments "doctor" [];
                              OpCountDocuments "appointment" [] ] |})
  /\ respond CDocument (fst (get_stats w)) = mk_response 200 (CDocument counts).
Proof.
  intros Hdb Hnone counts. subst counts.
  rewrite (get_stats_answered w d Hdb Hnone). split; reflexivity.
Qed.

(** The first three parts of the read-only property, for the calls made. *)
Ltac only_counts calls :=
  split; [reflexivity |];
  split; [reflexivity |];
  split; [exists calls;
          split; [rewrite <- ?app_assoc, ?app_nil_r; reflexivity |];
          split; [reflexivity | simpl; lia] |].

(** X2. GET /stats only reads: whatever the store does, the database and the
    [ObjectId] binding after the request are those before it, and the calls
    it made are count calls, three at most; a count that fails is the last
    call, so when the count of the patients fails the doctors and the
    appointments are not counted. *)
Theorem get_stats_only_counts (w : World) :
  db (snd (get_stats w)) = db w
  /\ ObjectId (snd (get_stats w)) = ObjectId w
  /\ (exists calls,
        trace (snd (get_stats w)) = trace w ++ calls
        /\ forallb is_count_op calls = true
        /\ (List.length calls <= 3)%nat)
  /\ (forall d msg,
        db w = Some d ->
        failing d m_count_documents "patient" = Some msg ->
        trace (snd (get_stats w)) = trace w ++ [OpCountDocuments "patient" []]).
Proof.
  destruct w as [[d |] oi tr].
  - unfold get_stats, count_all, count_documents, store_call, try_except, get_db,
      ret, raise, log_op, bind. simpl.
    destruct (failing d m_count_documents "patient") as [m1 |] eqn:H1; simpl.
    { only_counts [OpCountDocuments "patient" []].
      intros d0 msg Hd _. reflexivity. }
    destruct (failing d m_count_documents "doctor") as [m2 |] eqn:H2; simpl.
    { only_counts [OpCountDocuments "patient" []; OpCountDocuments "doctor" []].
      intros d0 msg Hd Hf. inversion Hd; subst d0. congruence. }
    destruct (failing d m_count_documents "appointment") as [m3 |] eqn:H3; simpl.
    { only_counts [OpCountDocuments "patient" []; OpCountDocuments "doctor" [];
                   OpCountDocuments "appointment" []].
      intros d0 msg Hd Hf. inversion Hd; subst d0. congruence. }
    only_counts [OpCountDocuments "patient" []; OpCountDocuments "doctor" [];
                 OpCountDocuments "appointment" []].
    intros d0 msg Hd Hf. inversion Hd; subst d0. congruence.
  - simpl. only_counts (@nil store_op).
    intros d msg Hd. discriminate.
Qed.

(* ===================================================================== *)
(** ** Further properties: the appointment route                          *)
(* ===================================================================== *)

Lemma matches_id (o : bson_oid) (doc : document) :
  matches [("_id", VObjectId o)] doc = true
  <-> dict_get "_id" doc = Some (VObjectId o).
Proof.
  unfold matches. simpl. rewrite andb_true_r. apply bool_decide_eq_true.
Qed.

(** The lookup by identifier is true exactly when the collection holds a
    document with the identifier. *)
Lemma lookup_truthy (d : Database) (coll : string) (o : bson_oid) :
  truthy_doc (List.find (matches [("_id", VObjectId o)]) (coll_docs d coll)) = true
  <-> has_document d coll o.
Proof.
  unfold has_document. split.
  - destruct (List.find _ _) as [doc |] eqn:Hfind; [| discriminate].
    intros _. apply find_some in Hfind. destruct Hfind as [Hin Hm].
    exists doc. split; [exact Hin | apply matches_id; exact Hm].
  - intros [doc [Hin Hid]].
    destruct (List.find _ _) as [found |] eqn:Hfind.
    + apply find_some in Hfind. destruct Hfind as [_ Hm].
      apply matches_id in Hm. destruct found; [discriminate | reflexivity].
    + exfalso. pose proof (find_none _ _ Hfind doc Hin) as Hno.
      apply matches_id in Hid. congruence.
Qed.

Lemma lookup_falsy (d : Database) (coll : string) (o : bson_oid) :
  ~ has_document d coll o ->
  truthy_doc (List.find (matches [("_id", VObjectId o)]) (coll_docs d coll)) = false.
Proof.
  intros Hno. destruct (truthy_doc _) eqn:E; [| reflexivity].
  exfalso. apply Hno. apply lookup_truthy. exact E.
Qed.

(** The checks with both references readable and both lookups answered. *)
Lemma referential_checks_answered (payload : Appointment.t) (w : World) (d : Database)
    (make : string -> Result bson_oid) (o1 o2 : bson_oid) :
  db w = Some d ->
  ObjectId w = Some make ->
  make (Appointment.patient_id payload) = Ok o1 ->
  make (Appointment.doctor_id payload) = Ok o2 ->
  failing d m_find_one "patient" = None ->
  failing d m_find_one "doctor" = None ->
  referential_checks payload w
  = ((if negb (truthy_doc (List.find (matches [("_id", VObjectId o1)])
                             (coll_docs d "patient")))
      then Raise (HTTPException 404 "Patient not found")
      else if negb (truthy_doc (List.find (matches [("_id", VObjectId o2)])
                                  (coll_docs d "doctor")))
           then Raise (HTTPException 404 "Doctor not found")
           else Ok tt),
     {| db := db w;
        ObjectId := ObjectId w;
        trace := trace w ++ [ OpFindOne "patient" [("_id", VObjectId o1)];
                              OpFindOne "doctor" [("_id", VObjectId o2)] ] |}).
Proof.
  intros Hdb Hmake H1 H2 Hf1 Hf2.
  destruct w as [dbw oi tr]. simpl in Hdb, Hmake. subst dbw oi.
  unfold referential_checks, reference_exists, find_one, store_call,
    get_ObjectId, lift, ret, raise, log_op, bind. simpl.
  rewrite H1. simpl. rewrite Hf1. simpl. rewrite H2. simpl. rewrite Hf2. simpl.
  rewrite <- app_assoc. simpl.
  destruct (negb _); [reflexivity |]. destruct (negb _); reflexivity.
Qed.

(** X3. The verdict of the referential checks of POST /appointments, when
    both references are readable and the store answers both lookups: the
    patient is looked up first and the doctor second; a missing patient gives
    404 "Patient not found" (also when the doctor is missing too), a missing
    doctor alone gives 404 "Doctor not found", and the checks pass exactly
    when both documents exist. *)
Theorem referential_checks_verdict (payload : Appointment.t) (w : World) (d : Database)
    (make : string -> Result bson_oid) (o1 o2 : bson_oid) :
  db w = Some d ->
  ObjectId w = Some make ->
  make (Appointment.patient_id payload) = Ok o1 ->
  make (Appointment.doctor_id payload) = Ok o2 ->
  failing d m_find_one "patient" = None ->
  failing d m_find_one "doctor" = None ->
  trace (snd (referential_checks payload w))
  = trace w ++ [ OpFindOne "patient" [("_id", VObjectId o1)];
                 OpFindOne "doctor" [("_id", VObjectId o2)] ]
  /\ (~ has_document d "patient" o1 ->
      fst (referential_checks payload w)
      = Raise (HTTPException 404 "Patient not found"))
  /\ (has_document d "patient" o1 -> ~ has_document d "doctor" o2 ->
      fst (referential_checks payload w)
      = Raise (HTTPException 404 "Doctor not found"))
  /\ (fst (referential_checks payload w) = Ok tt
      <-> has_document d "patient" o1 /\ has_document d "doctor" o2).
Proof.
  intros Hdb Hmake H1 H2 Hf1 Hf2.
  rewrite (referential_checks_answered payload w d make o1 o2 Hdb Hmake H1 H2 Hf1 Hf2).
  simpl. split; [reflexivity |].
  split; [| split].
  - intros Hno. rewrite (lookup_falsy d "patient" o1 Hno). reflexivity.
  - intros Hp Hno. apply lookup_truthy in Hp. rewrite Hp.
    rewrite (lookup_falsy d "doctor" o2 Hno). reflexivity.
  - split.
    + destruct (truthy_doc (List.find (matches [("_id", VObjectId o1)]) _)) eqn:E1;
        simpl; [| discriminate].
      destruct (truthy_doc (List.find (matches [("_id", VObjectId o2)]) _)) eqn:E2;
        simpl; [| discriminate].
      intros _. split; apply lookup_truthy; assumption.
    + intros [Hp Hd]. apply lookup_truthy in Hp. apply lookup_truthy in Hd.
      rewrite Hp, Hd. reflexivity.
Qed.

(** The response of [create_document], which the connection and the insert
    decide. *)
Lemma create_document_response (c : string) (record : document) (w : World)
    (d : Database) :
  db w = Some d ->
  fst (create_document c record w)
  = match failing d m_insert_one c with
    | None => Ok (oid_hex (new_oid (next_oid d)))
    | Some msg => Raise (WriteFailure msg)
    end.
Proof.
  intros Hdb. unfold create_document. rewrite Hdb.
  destruct (failing d m_insert_one c); reflexivity.
Qed.

(** The run of [create_appointment] on a connected store, with the lookups
    that its checks made. *)
Lemma create_appointment_run (payload : Appointment.t) (w : World) (d : Database) :
  db w = Some d ->
  exists lookups,
    snd (referential_checks payload w)
    = {| db := db w; ObjectId := ObjectId w; trace := trace w ++ lookups |}
    /\ create_appointment payload w
       = match failing d m_insert_one "appointment" with
         | None =>
             (Ok (id_reply (oid_hex (new_oid (next_oid d)))),
              {| db := Some (insert_doc "appointment"
                               (stored_document d (Appointment.model_dump payload)) d);
                 ObjectId := ObjectId w;
                 trace := trace w ++ lookups
                            ++ [OpInsertOne "appointment"
                                  (stored_document d (Appointment.model_dump payload))] |})
         | Some msg =>
             (Raise (WriteFailure msg),
              {| db := db w;
                 ObjectId := ObjectId w;
                 trace := trace w ++ lookups
                            ++ [OpInsertOne "appointment"
                                  (stored_document d (Appointment.model_dump payload))] |})
         end.
Proof.
  intros Hdb.
  destruct (referential_checks_world payload w d Hdb) as [lookups Hw].
  exists lookups. split; [exact Hw |].
  rewrite (create_appointment_connected payload w d Hdb), Hw.
  destruct (failing d m_insert_one "appointment") as [msg |] eqn:Hins.
  - unfold bind, create_document, log_op. simpl. rewrite Hdb, Hins. simpl.
    rewrite <- app_assoc. reflexivity.
  - apply insert_after_checks; assumption.
Qed.

(** X4. With a connection, the response of POST /appointments is decided by
    the insert alone, whatever the references, the [ObjectId] binding, the
    patients, the doctors and the outcome of the lookups are: the new
    identifier when the store takes the write, the error of the write
    otherwise.  The handler raises no [HTTPException], and the response is
    never a 404. *)
Theorem create_appointment_response_decided_by_insert
    (payload : Appointment.t) (w : World) (d : Database) :
  db w = Some d ->
  fst (create_appointment payload w)
  = match failing d m_insert_one "appointment" with
    | None => Ok (id_reply (oid_hex (new_oid (next_oid d))))
    | Some msg => Raise (WriteFailure msg)
    end
  /\ (forall code detail,
        fst (create_appointment payload w) <> Raise (HTTPException code detail))
  /\ status (respond CDocument (fst (create_appointment payload w))) <> 404%Z.
Proof.
  intros Hdb.
  destruct (create_appointment_run payload w d Hdb) as [lookups [_ Hrun]].
  rewrite Hrun.
  destruct (failing d m_insert_one "appointment"); simpl;
    (split; [reflexivity | split; [intros code detail; discriminate | discriminate]]).
Qed.

(** X5. With a connection, POST /appointments writes to the appointment
    collection only: every other collection holds after the request what it
    held before; the appointment collection gains the one new document at its
    end when the store takes the write, and nothing when it does not. *)
Theorem create_appointment_touches_appointments_only
    (payload : Appointment.t) (w : World) (d : Database) :
  db w = Some d ->
  (forall c, c <> "appointment" ->
     world_docs (snd (create_appointment payload w)) c = world_docs w c)
  /\ (failing d m_insert_one "appointment" = None ->
      world_docs (snd (create_appointment payload w)) "appointment"
      = world_docs w "appointment"
          ++ [stored_document d (Appointment.model_dump payload)])
  /\ (forall msg, failing d m_insert_one "appointment" = Some msg ->
      world_docs (snd (create_appointment payload w)) "appointment"
      = world_docs w "appointment").
Proof.
  intros Hdb.
  destruct (create_appointment_run payload w d Hdb) as [lookups [_ Hrun]].
  rewrite Hrun. unfold world_docs. rewrite Hdb.
  split; [| split].
  - intros c Hc. destruct (failing d m_insert_one "appointment"); simpl.
    + reflexivity.
    + apply coll_docs_insert_ne. congruence.
  - intros Hok. rewrite Hok. simpl. apply coll_docs_insert_eq.
  - intros msg Hfail. rewrite Hfail. reflexivity.
Qed.

(** X6. An error of the store during the lookup of the patient does not stop
    POST /appointments: it is caught with the rest, the doctor is not looked
    up, and the insert follows at once. *)
Theorem create_appointment_ignores_lookup_error
    (payload : Appointment.t) (w : World) (d : Database)
    (make : string -> Result bson_oid) (o : bson_oid) (msg : string) :
  db w = Some d ->
  ObjectId w = Some make ->
  make (Appointment.patient_id payload) = Ok o ->
  failing d m_find_one "patient" = Some msg ->
  referential_checks payload w
  = (Raise (PyMongoError msg), log_op (OpFindOne "patient" [("_id", VObjectId o)]) w)
  /\ trace (snd (create_appointment payload w))
     = trace w ++ [ OpFindOne "patient" [("_id", VObjectId o)];
                    OpInsertOne "appointment"
                      (stored_document d (Appointment.model_dump payload)) ]
  /\ (failing d m_insert_one "appointment" = None ->
      fst (create_appointment payload w)
      = Ok (id_reply (oid_hex (new_oid (next_oid d))))).
Proof.
  intros Hdb Hmake Hpid Hfail.
  assert (Hchecks : referential_checks payload w
                    = (Raise (PyMongoError msg),
                       log_op (OpFindOne "patient" [("_id", VObjectId o)]) w)).
  { destruct w as [dbw oi tr]. simpl in Hdb, Hmake. subst dbw oi.
    unfold referential_checks, reference_exists, find_one, store_call,
      get_ObjectId, lift, ret, raise, log_op, bind. simpl.
    rewrite Hpid. simpl. rewrite Hfail. reflexivity. }
  split; [exact Hchecks |].
  rewrite (create_appointment_connected payload w d Hdb), Hchecks.
  unfold bind, create_document, log_op. simpl. rewrite Hdb.
  destruct (failing d m_insert_one "appointment"); simpl;
    (split; [rewrite <- app_assoc; reflexivity |]).
  - discriminate.
  - reflexivity.
Qed.

Lemma first_count_failure_insert (c : string) (doc : document) (d : Database) :
  first_count_failure (insert_doc c doc d) = first_count_failure d.
Proof. reflexivity. Qed.

(** GET /stats after an insert into [c] that the store took. *)
Lemma get_stats_after_insert (c : string) (doc : document) (d : Database)
    (oi : option (string -> Result bson_oid)) (tr : list store_op) :
  first_count_failure d = None ->
  fst (get_stats {| db := Some (insert_doc c doc d); ObjectId := oi; trace := tr |})
  = Ok [ ("patients",
          VInt (Z.of_nat (List.length (coll_docs (insert_doc c doc d) "patient"))));
         ("doctors",
          VInt (Z.of_nat (List.length (coll_docs (insert_doc c doc d) "doctor"))));
         ("appointments",
          VInt (Z.of_nat (List.length (coll_docs (insert_doc c doc d) "appointment")))) ].
Proof.
  intros Hnone.
  rewrite (get_stats_answered
             {| db := Some (insert_doc c doc d); ObjectId := oi; trace := tr |}
             (insert_doc c doc d) eq_refl)
    by (rewrite first_count_failure_insert; exact Hnone).
  reflexivity.
Qed.

Lemma length_after_insert (c c' : string) (doc : document) (d : Database) :
  Z.of_nat (List.length (coll_docs (insert_doc c doc d) c'))
  = (Z.of_nat (List.length (coll_docs d c')) + (if String.eqb c c' then 1 else 0))%Z.
Proof.
  destruct (String.eqb c c') eqn:E.
  - apply String.eqb_eq in E. subst c'.
    rewrite coll_docs_insert_eq, length_app. simpl. lia.
  - apply String.eqb_neq in E. rewrite coll_docs_insert_ne by exact E. lia.
Qed.

(** X20. A successful POST is counted: on a connected store that takes the
    write and answers the counts, GET /stats after POST /patients,
    POST /doctors or POST /appointments shows the count of that kind one
    higher than before and the two other counts unchanged; for an appointment
    this holds whatever its references are. *)
Theorem stats_count_each_insert (w : World) (d : Database) :
  db w = Some d ->
  first_count_failure d = None ->
  let np := Z.of_nat (List.length (coll_docs d "patient")) in
  let nd := Z.of_nat (List.length (coll_docs d "doctor")) in
  let na := Z.of_nat (List.length (coll_docs d "appointment")) in
  (forall p, failing d m_insert_one "patient" = None ->
     fst (get_stats (snd (create_patient p w)))
     = Ok [ ("patients", VInt (np + 1)); ("doctors", VInt nd);
            ("appointments", VInt na) ])
  /\ (forall dr, failing d m_insert_one "doctor" = None ->
     fst (get_stats (snd (create_doctor dr w)))
     = Ok [ ("patients", VInt np); ("doctors", VInt (nd + 1));
            ("appointments", VInt na) ])
  /\ (forall a, failing d m_insert_one "appointment" = None ->
     fst (get_stats (snd (create_appointment a w)))
     = Ok [ ("patients", VInt np); ("doctors", VInt nd);
            ("appointments", VInt (na + 1)) ]).
Proof.
  intros Hdb Hnone np nd na. subst np nd na.
  split; [| split].
  - intros p Hok. unfold create_patient, bind.
    rewrite (create_document_ok "patient" _ w d Hdb Hok). simpl.
    rewrite (get_stats_after_insert _ _ _ _ _ Hnone), !length_after_insert. simpl.
    rewrite !Z.add_0_r. reflexivity.
  - intros dr Hok. unfold create_doctor, bind.
    rewrite (create_document_ok "doctor" _ w d Hdb Hok). simpl.
    rewrite (get_stats_after_insert _ _ _ _ _ Hnone), !length_after_insert. simpl.
    rewrite !Z.add_0_r. reflexivity.
  - intros a Hok.
    destruct (create_appointment_run a w d Hdb) as [lookups [_ Hrun]].
    rewrite Hrun, Hok. simpl.
    rewrite (get_stats_after_insert _ _ _ _ _ Hnone), !length_after_insert. simpl.
    rewrite !Z.add_0_r. reflexivity.
Qed.

(* ===================================================================== *)
(** ** Further properties: serialisation at the edges                     *)
(* ===================================================================== *)

Lemma dict_get_serialized (doc : document) (k : string) :
  dict_get k (serialize_doc doc) = dict_get k (map transport_field (rev doc)).
Proof.
  unfold serialize_doc.
  rewrite serialize_fold_update, dict_get_update, <- map_rev. simpl.
  destruct (dict_get k (map transport_field (rev doc))); reflexivity.
Qed.

Lemma wf_after_native_id (pre post : document) (v : value) :
  dict_wf (pre ++ ("_id", v) :: post) ->
  dict_wf post /\ ~ In "_id" (dict_keys post).
Proof.
  unfold dict_wf, dict_keys. rewrite map_app. simpl. intros Hwf.
  apply List.NoDup_app_remove_l in Hwf.
  inversion Hwf as [|? ? Hnot Hrest]; subst. split; assumption.
Qed.

(** X7. A document that holds both [_id] and a field [id] of its own: the
    output has one [id] entry, and the field that comes later in the document
    decides it.  An own [id] after [_id] replaces the identifier in the output;
    without one after it, the entry is the string form of the identifier, and
    an own [id] before [_id] is overwritten. *)
Theorem serialize_doc_later_id_wins (pre post : document) (v : value) :
  dict_wf (pre ++ ("_id", v) :: post) ->
  dict_wf (serialize_doc (pre ++ ("_id", v) :: post))
  /\ dict_get "id" (serialize_doc (pre ++ ("_id", v) :: post))
     = match dict_get "id" post with
       | Some own => Some (transport_value own)
       | None => Some (VStr (py_str v))
       end.
Proof.
  intros Hwf.
  split; [exact (proj1 (serialize_doc_ready _)) |].
  destruct (wf_after_native_id pre post v Hwf) as [Hpost Hno].
  rewrite dict_get_serialized, rev_app_distr. simpl.
  rewrite !map_app, <- !app_assoc, dict_get_app.
  rewrite transported_own_id.
  - rewrite (dict_get_rev "id" post Hpost).
    destruct (dict_get "id" post); reflexivity.
  - unfold dict_keys. rewrite map_rev. intros Hin. apply in_rev in Hin.
    exact (Hno Hin).
Qed.

Lemma append_cancel_l (a x y : string) : a +:+ x = a +:+ y -> x = y.
Proof.
  induction a as [|c a IH]; simpl; intros H.
  - exact H.
  - injection H as H. exact (IH H).
Qed.

Lemma isoformat_separator (d : datetime) : isoformat_sep " " d <> isoformat d.
Proof.
  unfold isoformat, isoformat_sep. intros H.
  repeat (apply append_cancel_l in H). simpl in H. discriminate.
Qed.

(** X8. An identifier that is itself a datetime is printed by [str], with a
    space between the date and the time, and not in the ISO form with [T]
    that the datetime values of the other fields get: the test on the key
    [_id] comes first in the loop. *)
Theorem serialize_doc_datetime_identifier (doc : document) (d : datetime) :
  dict_wf doc ->
  dict_get "id" doc = None ->
  dict_get "_id" doc = Some (VDatetime d) ->
  dict_get "id" (serialize_doc doc) = Some (VStr (isoformat_sep " " d))
  /\ isoformat_sep " " d <> isoformat d
  /\ (forall k, k <> "_id" -> dict_get k doc = Some (VDatetime d) ->
        dict_get k (serialize_doc doc) = Some (VStr (isoformat d))).
Proof.
  intros Hwf Hid Hnative.
  assert (Hno : ~ In "id" (dict_keys doc)) by (apply dict_get_None; exact Hid).
  split; [| split].
  - rewrite (serialize_doc_map doc Hwf Hno), (transported_id doc Hno), Hnative.
    reflexivity.
  - apply isoformat_separator.
  - intros k Hk Hget.
    assert (Hk' : k <> "id") by (intros ->; congruence).
    rewrite (serialize_doc_other doc k Hwf Hk Hk'), Hget. reflexivity.
Qed.

(* ===================================================================== *)
(** ** Further properties: the schemas                                    *)
(* ===================================================================== *)

Lemma vap_valid {A B : Type} (f : validated (A -> B)) (x : validated A) (b : B) :
  f <*> x = Valid b -> exists g a, f = Valid g /\ x = Valid a /\ b = g a.
Proof.
  destruct f as [g | e1], x as [a | e2]; simpl; intros H; try discriminate.
  inversion H. exists g, a. repeat split.
Qed.

(** From a valid model back to its fields, one application at a time. *)
Ltac split_fields H :=
  match type of H with
  | _ <*> _ = Valid _ =>
      let g := fresh "g" in
      let a := fresh "a" in
      let Hf := fresh "Hrest" in
      let Hx := fresh "Hfield" in
      let Hb := fresh "Hmodel" in
      apply vap_valid in H;
      destruct H as [g [a [Hf [Hx Hb]]]];
      split_fields Hf
  | Valid _ = Valid _ => inversion H; clear H
  end.

Lemma validate_Appointment_fields (px : coercions) (body : dict json)
    (a : Appointment.t) :
  validate_Appointment px body = Valid a ->
  required_field "patient_id" (check_str px) body = Valid (Appointment.patient_id a)
  /\ required_field "doctor_id" (check_str px) body = Valid (Appointment.doctor_id a)
  /\ required_field "start_time" (check_datetime px) body
     = Valid (Appointment.start_time a)
  /\ duration_field px body = Valid (Appointment.duration_minutes a)
  /\ default_field "reason" None (check_optional (check_str px)) body
     = Valid (Appointment.reason a)
  /\ default_field "status" Appointment.status_default (check_str px) body
     = Valid (Appointment.status a).
Proof.
  unfold validate_Appointment. intros H. split_fields H.
  subst. repeat split; assumption.
Qed.

Lemma validate_Patient_fields (px : coercions) (body : dict json) (p : Patient.t) :
  validate_Patient px body = Valid p ->
  required_field "first_name" (check_str px) body = Valid (Patient.first_name p)
  /\ required_field "last_name" (check_str px) body = Valid (Patient.last_name p)
  /\ default_field "email" None (check_optional (check_email px)) body
     = Valid (Patient.email p)
  /\ default_field "phone" None (check_optional (check_str px)) body
     = Valid (Patient.phone p)
  /\ default_field "date_of_birth" None (check_optional (check_str px)) body
     = Valid (Patient.date_of_birth p)
  /\ default_field "gender" None (check_optional (check_str px)) body
     = Valid (Patient.gender p)
  /\ default_field "address" None (check_optional (check_str px)) body
     = Valid (Patient.address p)
  /\ default_field "insurance_provider" None (check_optional (check_str px)) body
     = Valid (Patient.insurance_provider p)
  /\ default_field "insurance_number" None (check_optional (check_str px)) body
     = Valid (Patient.insurance_number p)
  /\ default_field "notes" None (check_optional (check_str px)) body
     = Valid (Patient.notes p).
Proof.
  unfold validate_Patient. intros H. split_fields H.
  subst. repeat split; assumption.
Qed.

Lemma validate_Doctor_fields (px : coercions) (body : dict json) (dr : Doctor.t) :
  validate_Doctor px body = Valid dr ->
  required_field "first_name" (check_str px) body = Valid (Doctor.first_name dr)
  /\ required_field "last_name" (check_str px) body = Valid (Doctor.last_name dr)
  /\ default_field "email" None (check_optional (check_email px)) body
     = Valid (Doctor.email dr)
  /\ default_field "phone" None (check_optional (check_str px)) body
     = Valid (Doctor.phone dr)
  /\ required_field "department" (check_str px) body = Valid (Doctor.department dr)
  /\ default_field "title" None (check_optional (check_str px)) body
     = Valid (Doctor.title dr).
Proof.
  unfold validate_Doctor. intros H. split_fields H.
  subst. repeat split; assumption.
Qed.

Lemma duration_field_bounds (px : coercions) (body : dict json) (z : Z) :
  duration_field px body = Valid z -> (5 <= z <= 240)%Z.
Proof.
  unfold duration_field, default_field, checked, check_int_range,
    Appointment.duration_default, Appointment.duration_ge, Appointment.duration_le.
  destruct (dict_get "duration_minutes" body) as [j |].
  - destruct (match j with JNumber z0 => Some z0 | _ => lax_int px j end) as [z0 |];
      [| discriminate].
    destruct (Z.ltb_spec z0 5) as [Hlow | Hlow]; [discriminate |].
    destruct (Z.ltb_spec 240 z0) as [Hhigh | Hhigh]; [discriminate |].
    intros Heq. inversion Heq. lia.
  - intros Heq. inversion Heq. lia.
Qed.

(** X9. Every appointment that passes validation has its duration between 5
    and 240 minutes, whatever the body was and however the validation library
    reads values that are not integers; so has every appointment that
    POST /appointments hands to its handler. *)
Theorem validated_appointment_duration_in_range
    (px : coercions) (body : dict json) :
  (forall a, validate_Appointment px body = Valid a ->
     (5 <= Appointment.duration_minutes a <= 240)%Z)
  /\ (forall w r w',
        post_appointments px body w = (r, w') ->
        status r <> 422%Z ->
        exists a, validate_Appointment px body = Valid a
                  /\ (5 <= Appointment.duration_minutes a <= 240)%Z
                  /\ (r, w') = (respond CDocument (fst (create_appointment a w)),
                                snd (create_appointment a w))).
Proof.
  assert (Hrange : forall a, validate_Appointment px body = Valid a ->
                             (5 <= Appointment.duration_minutes a <= 240)%Z).
  { intros a Hvalid.
    destruct (validate_Appointment_fields px body a Hvalid) as [_ [_ [_ [Hd _]]]].
    exact (duration_field_bounds px body _ Hd). }
  split; [exact Hrange |].
  intros w r w' Hpost Hstatus.
  unfold post_appointments, post_route in Hpost.
  destruct (validate_Appointment px body) as [a | errs] eqn:Hvalid.
  - exists a. split; [reflexivity |]. split; [apply Hrange; reflexivity |].
    destruct (create_appointment a w) as [res w1]. simpl. congruence.
  - inversion Hpost; subst. simpl in Hstatus. congruence.
Qed.

Lemma required_str_verbatim (px : coercions) (name : string) (body : dict json)
    (s s' : string) :
  dict_get name body = Some (JString s) ->
  required_field name (check_str px) body = Valid s' -> s' = s.
Proof.
  intros Hget. unfold required_field. rewrite Hget. simpl.
  intros H. inversion H. reflexivity.
Qed.

(** X10. What a valid appointment holds: the two references are the strings
    of the body as they were written; without a [status] the status is
    "scheduled", and a [status] given as a string is kept, whatever it says;
    without a [reason], or with [null], the reason is [None]. *)
Theorem validated_appointment_fields
    (px : coercions) (body : dict json) (a : Appointment.t) :
  validate_Appointment px body = Valid a ->
  (forall s, dict_get "patient_id" body = Some (JString s) ->
     Appointment.patient_id a = s)
  /\ (forall s, dict_get "doctor_id" body = Some (JString s) ->
     Appointment.doctor_id a = s)
  /\ (dict_get "status" body = None -> Appointment.status a = "scheduled")
  /\ (forall s, dict_get "status" body = Some (JString s) ->
     Appointment.status a = s)
  /\ (dict_get "reason" body = None \/ dict_get "reason" body = Some JNull ->
     Appointment.reason a = None).
Proof.
  intros Hvalid.
  destruct (validate_Appointment_fields px body a Hvalid)
    as [Hp [Hd [_ [_ [Hr Hs]]]]].
  split; [| split; [| split; [| split]]].
  - intros s Hget. exact (required_str_verbatim px _ body s _ Hget Hp).
  - intros s Hget. exact (required_str_verbatim px _ body s _ Hget Hd).
  - intros Hget. unfold default_field in Hs. rewrite Hget in Hs.
    inversion Hs. reflexivity.
  - intros s Hget. unfold default_field in Hs. rewrite Hget in Hs. simpl in Hs.
    inversion Hs. reflexivity.
  - intros [Hget | Hget]; unfold default_field in Hr; rewrite Hget in Hr;
      simpl in Hr; inversion Hr; reflexivity.
Qed.

Lemma default_field_set_eq {A : Type} (name : string) (j : json) (default : A)
    (check : json -> string + A) (body : dict json) :
  default_field name default check (dict_set name j body) = checked name (check j).
Proof. unfold default_field. rewrite dict_get_set_eq. reflexivity. Qed.

(** X11. The fields whose descriptions name a format are free text: a valid
    appointment body stays valid with any string as [status] (the
    "scheduled|completed|cancelled" of the description is not enforced), and a
    valid patient body stays valid with any string as [date_of_birth] (the
    "YYYY-MM-DD" of the description is not enforced); the model holds the
    string as given and its other fields are as before. *)
Theorem described_formats_are_not_enforced (px : coercions) (body : dict json)
    (s : string) :
  (forall a, validate_Appointment px body = Valid a ->
     validate_Appointment px (dict_set "status" (JString s) body)
     = Valid (appointment_with_status s a))
  /\ (forall p, validate_Patient px body = Valid p ->
     validate_Patient px (dict_set "date_of_birth" (JString s) body)
     = Valid (patient_with_date_of_birth (Some s) p)).
Proof.
  split.
  - intros a Hvalid.
    destruct (validate_Appointment_fields px body a Hvalid)
      as [H1 [H2 [H3 [H4 [H5 _]]]]].
    unfold validate_Appointment, duration_field.
    rewrite (default_field_set_eq "status").
    rewrite !required_field_set_ne by discriminate.
    rewrite !default_field_set_ne by discriminate.
    unfold duration_field in H4. rewrite H1, H2, H3, H4, H5.
    destruct a. reflexivity.
  - intros p Hvalid.
    destruct (validate_Patient_fields px body p Hvalid)
      as [H1 [H2 [H3 [H4 [_ [H6 [H7 [H8 [H9 H10]]]]]]]]].
    unfold validate_Patient.
    rewrite (default_field_set_eq "date_of_birth").
    rewrite !required_field_set_ne by discriminate.
    rewrite !default_field_set_ne by discriminate.
    rewrite H1, H2, H3, H4, H6, H7, H8, H9, H10.
    destruct p. reflexivity.
Qed.

(** X12. The required fields are enough: a body that holds the required
    fields of its model as strings (and, for an appointment, a [start_time]
    the library can parse) and none of the optional ones is valid, whatever
    the coercions of the library; the optional fields of the model are [None],
    the duration is 30 and the status is "scheduled". *)
Theorem required_fields_are_enough (px : coercions) (body : dict json) :
  (forall f l,
     dict_get "first_name" body = Some (JString f) ->
     dict_get "last_name" body = Some (JString l) ->
     (forall k, In k patient_fields -> ~ In k Patient.required_fields ->
                dict_get k body = None) ->
     validate_Patient px body
     = Valid (Patient.mk f l None None None None None None None None))
  /\ (forall f l dep,
     dict_get "first_name" body = Some (JString f) ->
     dict_get "last_name" body = Some (JString l) ->
     dict_get "department" body = Some (JString dep) ->
     (forall k, In k doctor_fields -> ~ In k Doctor.required_fields ->
                dict_get k body = None) ->
     validate_Doctor px body = Valid (Doctor.mk f l None None dep None))
  /\ (forall pid did j t,
     dict_get "patient_id" body = Some (JString pid) ->
     dict_get "doctor_id" body = Some (JString did) ->
     dict_get "start_time" body = Some j ->
     parse_datetime px j = Some t ->
     (forall k, In k appointment_fields -> ~ In k Appointment.required_fields ->
                dict_get k body = None) ->
     validate_Appointment px body
     = Valid (Appointment.mk pid did t 30 None "scheduled")).
Proof.
  split; [| split].
  - intros f l Hf Hl Hrest.
    unfold validate_Patient, required_field, default_field.
    rewrite Hf, Hl.
    rewrite !Hrest by (unfold patient_fields, Patient.required_fields; simpl;
                       intuition discriminate).
    reflexivity.
  - intros f l dep Hf Hl Hd Hrest.
    unfold validate_Doctor, required_field, default_field.
    rewrite Hf, Hl, Hd.
    rewrite !Hrest by (unfold doctor_fields, Doctor.required_fields; simpl;
                       intuition discriminate).
    reflexivity.
  - intros pid did j t Hp Hd Hs Ht Hrest.
    unfold validate_Appointment, duration_field, required_field, default_field.
    rewrite Hp, Hd, Hs.
    rewrite !Hrest by (unfold appointment_fields, Appointment.required_fields; simpl;
                       intuition discriminate).
    unfold check_datetime. rewrite Ht. reflexivity.
Qed.

(** X13. Validation reads the fields the model declares and nothing else: an
    entry of the body under any other key changes neither the verdict nor the
    model, so it reaches neither the handler nor the store. *)
Theorem undeclared_fields_are_ignored (px : coercions) (body : dict json)
    (k : string) (j : json) :
  (~ In k patient_fields ->
     validate_Patient px (dict_set k j body) = validate_Patient px body)
  /\ (~ In k doctor_fields ->
     validate_Doctor px (dict_set k j body) = validate_Doctor px body)
  /\ (~ In k appointment_fields ->
     validate_Appointment px (dict_set k j body) = validate_Appointment px body).
Proof.
  split; [| split]; intros Hk.
  - unfold validate_Patient.
    rewrite !required_field_set_ne, !default_field_set_ne
      by (intros ->; apply Hk; unfold patient_fields; simpl; tauto).
    reflexivity.
  - unfold validate_Doctor.
    rewrite !required_field_set_ne, !default_field_set_ne
      by (intros ->; apply Hk; unfold doctor_fields; simpl; tauto).
    reflexivity.
  - unfold validate_Appointment, duration_field.
    rewrite !required_field_set_ne, !default_field_set_ne
      by (intros ->; apply Hk; unfold appointment_fields; simpl; tauto).
    reflexivity.
Qed.

Lemma email_refused_error (px : coercions) (body : dict json) (s : string) :
  dict_get "email" body = Some (JString s) ->
  validate_email px s = None ->
  errors_of (default_field "email" None (check_optional (check_email px)) body)
  = [("email", "value_error")].
Proof.
  intros Hget Hno. unfold default_field. rewrite Hget.
  unfold check_optional, check_email, check_str. rewrite Hno. reflexivity.
Qed.

(** X14. The [email] of a patient or a doctor goes through the address
    validator: an address it refuses makes the POST a 422 with an error on
    [email], the handler is not run and the world is the one before the
    request; an address it takes is held by the model in the form the
    validator returns. *)
Theorem email_is_validated (px : coercions) (body : dict json) (s : string) :
  dict_get "email" body = Some (JString s) ->
  (validate_email px s = None ->
     forall w,
       (exists errs, post_patients px body w = (mk_response 422 (CValidation errs), w)
                     /\ In ("email", "value_error") errs)
       /\ (exists errs, post_doctors px body w = (mk_response 422 (CValidation errs), w)
                        /\ In ("email", "value_error") errs))
  /\ (forall p, validate_Patient px body = Valid p ->
        Patient.email p = validate_email px s /\ Patient.email p <> None)
  /\ (forall dr, validate_Doctor px body = Valid dr ->
        Doctor.email dr = validate_email px s /\ Doctor.email dr <> None).
Proof.
  intros Hget.
  split; [| split].
  - intros Hno w.
    pose proof (email_refused_error px body s Hget Hno) as Herr.
    split.
    + assert (Hin : In ("email", "value_error") (errors_of (validate_Patient px body))).
      { unfold validate_Patient. rewrite !errors_of_vap, Herr, !in_app_iff.
        simpl. tauto. }
      destruct (invalid_of_error _ _ Hin) as [errs [Hinv Hmem]].
      exists errs. split; [apply post_route_invalid; exact Hinv | exact Hmem].
    + assert (Hin : In ("email", "value_error") (errors_of (validate_Doctor px body))).
      { unfold validate_Doctor. rewrite !errors_of_vap, Herr, !in_app_iff.
        simpl. tauto. }
      destruct (invalid_of_error _ _ Hin) as [errs [Hinv Hmem]].
      exists errs. split; [apply post_route_invalid; exact Hinv | exact Hmem].
  - intros p Hvalid.
    destruct (validate_Patient_fields px body p Hvalid) as [_ [_ [He _]]].
    unfold default_field in He. rewrite Hget in He.
    unfold check_optional, check_email, check_str in He.
    destruct (validate_email px s) as [s' |]; simpl in He; [| discriminate].
    inversion He. split; [reflexivity | discriminate].
  - intros dr Hvalid.
    destruct (validate_Doctor_fields px body dr Hvalid) as [_ [_ [He _]]].
    unfold default_field in He. rewrite Hget in He.
    unfold check_optional, check_email, check_str in He.
    destruct (validate_email px s) as [s' |]; simpl in He; [| discriminate].
    inversion He. split; [reflexivity | discriminate].
Qed.

(* ===================================================================== *)
(** ** Further properties: the list routes and the POST boundary          *)
(* ===================================================================== *)

Lemma serialized_records_ready (docs : list document) :
  Forall transport_ready (map serialize_doc docs).
Proof.
  induction docs as [|doc rest IH]; simpl; constructor.
  - apply serialize_doc_ready.
  - exact IH.
Qed.

(** X15. The three list routes hand back what the adapter found, serialised
    one document at a time: as many records, in the same order, each with its
    keys distinct, without an [_id] key and without a datetime value, in the
    world the adapter left; an error of the adapter is not caught and leaves
    the handler as it was raised. *)
Theorem list_routes_serialize_every_document
    (c : string) (handler : Z -> M (list document)) (limit : Z) (w : World) :
  In (c, handler)
     [ ("patient", list_patients); ("doctor", list_doctors);
       ("appointment", list_appointments) ] ->
  (forall docs w',
     get_documents c [] limit w = (Ok docs, w') ->
     handler limit w = (Ok (map serialize_doc docs), w')
     /\ List.length (map serialize_doc docs) = List.length docs
     /\ Forall transport_ready (map serialize_doc docs))
  /\ (forall e w',
     get_documents c [] limit w = (Raise e, w') ->
     handler limit w = (Raise e, w')).
Proof.
  intros Hin.
  assert (Hdef : handler = fun l => let* docs := get_documents c [] l in
                                    ret (map serialize_doc docs)).
  { destruct Hin as [H | [H | [H | []]]]; inversion H; reflexivity. }
  subst handler. split.
  - intros docs w' Hget. unfold bind. rewrite Hget.
    split; [reflexivity |]. split; [apply length_map | apply serialized_records_ready].
  - intros e w' Hget. unfold bind. rewrite Hget. reflexivity.
Qed.

Lemma create_document_outcomes (c : string) (record : document) (w : World) :
  (exists new_id, fst (create_document c record w) = Ok new_id)
  \/ fst (create_document c record w) = Raise StoreUnavailable
  \/ (exists msg, fst (create_document c record w) = Raise (WriteFailure msg)).
Proof.
  unfold create_document. destruct (db w) as [d |].
  - destruct (failing d m_insert_one c) as [msg |]; simpl.
    + right. right. exists msg. reflexivity.
    + left. eexists. reflexivity.
  - right. left. reflexivity.
Qed.

Lemma insert_reply_status (c : string) (record : document) (w : World) :
  let r := respond CDocument
             (fst ((let* new_id := create_document c record in
                    ret (id_reply new_id)) w)) in
  status r = 200%Z \/ status r = 500%Z.
Proof.
  simpl. unfold bind.
  destruct (create_document_outcomes c record w) as [[i H] | [H | [msg H]]];
    destruct (create_document c record w) as [res w1]; simpl in H; subst res; simpl;
    auto.
Qed.

Lemma create_appointment_status (payload : Appointment.t) (w : World) :
  let r := respond CDocument (fst (create_appointment payload w)) in
  status r = 200%Z \/ status r = 500%Z.
Proof.
  simpl. destruct (db w) as [d |] eqn:Hdb.
  - destruct (create_appointment_run payload w d Hdb) as [lookups [_ Hrun]].
    rewrite Hrun. destruct (failing d m_insert_one "appointment"); simpl; auto.
  - unfold create_appointment, bind, get_db. rewrite Hdb. simpl. auto.
Qed.

Lemma post_route_status {T : Type} (validate : dict json -> validated T)
    (handler : T -> M document) (body : dict json) (w : World) :
  (forall payload w0,
     let r := respond CDocument (fst (handler payload w0)) in
     status r = 200%Z \/ status r = 500%Z) ->
  let out := post_route validate handler body w in
  (status (fst out) = 200%Z \/ status (fst out) = 422%Z \/ status (fst out) = 500%Z)
  /\ (status (fst out) = 422%Z -> snd out = w /\ is_valid (validate body) = false)
  /\ (is_valid (validate body) = false -> fst out
        = mk_response 422 (CValidation (errors_of (validate body)))).
Proof.
  intros Hhandler. unfold post_route.
  destruct (validate body) as [payload | errs]; simpl.
  - specialize (Hhandler payload w). simpl in Hhandler.
    destruct (handler payload w) as [res w1]. simpl in *.
    split; [tauto |]. split; [| discriminate].
    intros H. destruct Hhandler as [H2 | H5]; rewrite H in *; discriminate.
  - split; [tauto |]. split; [intros _; split; reflexivity | reflexivity].
Qed.

(** X16. The status of a POST: each of the three POST routes answers 200, 422
    or 500 and nothing else, so none of them ever answers 404; after an answer
    of 422 the world is the one before the request. *)
Theorem post_routes_status_codes (px : coercions) (body : dict json) (w : World)
    (out : http_response * World) :
  In out [ post_patients px body w; post_doctors px body w;
           post_appointments px body w ] ->
  (status (fst out) = 200%Z \/ status (fst out) = 422%Z \/ status (fst out) = 500%Z)
  /\ status (fst out) <> 404%Z
  /\ (status (fst out) = 422%Z -> snd out = w).
Proof.
  intros Hin.
  assert (Hcodes :
    (status (fst out) = 200%Z \/ status (fst out) = 422%Z \/ status (fst out) = 500%Z)
    /\ (status (fst out) = 422%Z -> snd out = w)).
  { destruct Hin as [H | [H | [H | []]]]; subst out.
    - destruct (post_route_status (validate_Patient px) create_patient body w
                  (fun payload w0 =>
                     insert_reply_status "patient" (Patient.model_dump payload) w0))
        as [H1 [H2 _]].
      split; [exact H1 | intros H; exact (proj1 (H2 H))].
    - destruct (post_route_status (validate_Doctor px) create_doctor body w
                  (fun payload w0 =>
                     insert_reply_status "doctor" (Doctor.model_dump payload) w0))
        as [H1 [H2 _]].
      split; [exact H1 | intros H; exact (proj1 (H2 H))].
    - destruct (post_route_status (validate_Appointment px) create_appointment body w
                  create_appointment_status)
        as [H1 [H2 _]].
      split; [exact H1 | intros H; exact (proj1 (H2 H))]. }
  destruct Hcodes as [Hcodes Hsame].
  split; [exact Hcodes |]. split; [| exact Hsame].
  intros H. destruct Hcodes as [H2 | [H4 | H5]]; rewrite H in *; discriminate.
Qed.

(* ===================================================================== *)
(** ** Further properties: the diagnostic route                           *)
(* ===================================================================== *)



Lemma probe_database_ok (env : surroundings) (w : World) (r0 : diagnostics) :
  exists r, probe_database env w r0 = Ok r /\ diag_backend r = diag_backend r0.
Proof.
  unfold probe_database, probe_collections.
  destruct (db w) as [d |]; [| eexists; split; reflexivity].
  destruct (db_name env) as [name | e].
  - destruct (list_collection_names env) as [names | e].
    + eexists; split; reflexivity.
    + rewrite is_Exception_all. eexists; split; reflexivity.
  - rewrite is_Exception_all. eexists; split; reflexivity.
Qed.

(** X17. GET /test never fails: for every state of the process and every
    outcome of the calls it makes it returns its dictionary.  In what it
    returns, [backend] is always "✅ Running", and [database_url] and
    [database_name] tell only whether the variables DATABASE_URL and
    DATABASE_NAME of the environment are set to a non-empty value: the name of
    the database read from the handle is overwritten before the return, and a
    variable set to the empty string counts as not set. *)
Theorem test_database_always_answers (env : surroundings) (w : World) :
  exists r,
    test_database env w = Ok r
    /\ diag_backend r = "✅ Running"
    /\ diag_database_url r = Some (set_or_not (getenv env "DATABASE_URL"))
    /\ diag_database_name r = Some (set_or_not (getenv env "DATABASE_NAME"))
    /\ (getenv env "DATABASE_NAME" = Some "" \/ getenv env "DATABASE_NAME" = None ->
        diag_database_name r = Some "❌ Not Set")
    /\ (forall c rest, getenv env "DATABASE_NAME" = Some (String c rest) ->
        diag_database_name r = Some "✅ Set").
Proof.
  destruct (probe_database_ok env w initial_diagnostics) as [r [Hr Hback]].
  unfold test_database. rewrite Hr. eexists. split; [reflexivity |]. simpl.
  split; [exact Hback |]. split; [reflexivity |]. split; [reflexivity |].
  split.
  - intros [H | H]; rewrite H; reflexivity.
  - intros c rest H. rewrite H. reflexivity.
Qed.


(** X19. What GET /test tells about the connection.  Without a handle the
    [database] entry is "⚠️ Available but not initialized", the status is
    "Not Connected" and no collection is listed, whatever the calls on a
    handle would have given.  With a handle whose collections can be listed,
    the entry is "✅ Connected & Working", the status is "Connected", and the
    collections shown are the first ten of the store's list, ten at most. *)
Theorem test_database_connection_report (env : surroundings) (w : World) :
  (db w = None ->
     exists r, test_database env w = Ok r
               /\ diag_database r = "⚠️ Available but not initialized"
               /\ diag_connection_status r = "Not Connected"
               /\ diag_collections r = [])
  /\ (forall d name names,
        db w = Some d ->
        db_name env = Ok name ->
        list_collection_names env = Ok names ->
        exists r, test_database env w = Ok r
                  /\ diag_database r = "✅ Connected & Working"
                  /\ diag_connection_status r = "Connected"
                  /\ diag_collections r = firstn 10 names
                  /\ (List.length (diag_collections r) <= 10)%nat
                  /\ ((List.length names <= 10)%nat -> diag_collections r = names)).
Proof.
  split.
  - intros Hdb. unfold test_database, probe_database. rewrite Hdb.
    eexists. repeat split.
  - intros d name names Hdb Hname Hlist.
    unfold test_database, probe_database, probe_collections.
    rewrite Hdb, Hname, Hlist.
    eexists. split; [reflexivity |]. simpl.
    split; [reflexivity |]. split; [reflexivity |]. split; [reflexivity |].
    split.
    + rewrite length_firstn. lia.
    + intros Hshort. apply firstn_all2. exact Hshort.
Qed.

(* ===================================================================== *)
(** ** The further properties on the sample data                          *)
(* ===================================================================== *)

Lemma get_stats_counts_collections_witness :
  fst (get_stats world_with_doctor)
  = Ok [("patients", VInt 0); ("doctors", VInt 1); ("appointments", VInt 0)].
Proof.
  rewrite (proj1 (get_stats_counts_collections world_with_doctor database_with_doctor
                    eq_refl eq_refl)).
  reflexivity.
Defined.

Lemma get_stats_only_counts_witness :
  db (snd (get_stats world_failing_patient_count)) = db world_failing_patient_count
  /\ trace (snd (get_stats world_failing_patient_count))
     = [OpCountDocuments "patient" []].
Proof.
  destruct (get_stats_only_counts world_failing_patient_count)
    as [Hdb [_ [_ Hfirst]]].
  split; [exact Hdb |].
  exact (Hfirst _ "timeout" eq_refl eq_refl).
Defined.

Lemma referential_checks_verdict_witness :
  ~ has_document database_with_doctor "patient" (mk_oid unknown_patient_id)
  /\ fst (referential_checks appointment_unknown_patient world_with_doctor)
     = Raise (HTTPException 404 "Patient not found").
Proof.
  assert (Hno : ~ has_document database_with_doctor "patient"
                    (mk_oid unknown_patient_id)).
  { intros [doc [Hin _]]. exact Hin. }
  split; [exact Hno |].
  destruct (referential_checks_verdict appointment_unknown_patient world_with_doctor
              database_with_doctor bson_ObjectId
              (mk_oid unknown_patient_id) (mk_oid stored_doctor_id)
              eq_refl eq_refl eq_refl eq_refl eq_refl eq_refl)
    as [_ [Hpatient _]].
  exact (Hpatient Hno).
Defined.

Lemma create_appointment_response_decided_by_insert_witness :
  fst (create_appointment appointment_unknown_patient world_with_doctor)
  = Ok (id_reply "000000000000000000000001").
Proof.
  exact (proj1 (create_appointment_response_decided_by_insert
                  appointment_unknown_patient world_with_doctor database_with_doctor
                  eq_refl)).
Defined.

Lemma create_appointment_touches_appointments_only_witness :
  world_docs (snd (create_appointment appointment_unknown_patient world_with_doctor))
    "doctor"
  = world_docs world_with_doctor "doctor"
  /\ world_docs (snd (create_appointment appointment_unknown_patient world_with_doctor))
       "appointment"
     = world_docs world_with_doctor "appointment"
         ++ [stored_document database_with_doctor
               (Appointment.model_dump appointment_unknown_patient)].
Proof.
  destruct (create_appointment_touches_appointments_only
              appointment_unknown_patient world_with_doctor database_with_doctor
              eq_refl) as [Hother [Hnew _]].
  split; [apply Hother; discriminate | apply Hnew; reflexivity].
Defined.

Lemma create_appointment_ignores_lookup_error_witness :
  referential_checks appointment_unknown_patient world_failing_lookup
  = (Raise (PyMongoError "timeout"),
     log_op (OpFindOne "patient" [("_id", VObjectId (mk_oid unknown_patient_id))])
       world_failing_lookup)
  /\ fst (create_appointment appointment_unknown_patient world_failing_lookup)
     = Ok (id_reply "000000000000000000000000").
Proof.
  destruct (create_appointment_ignores_lookup_error appointment_unknown_patient
              world_failing_lookup database_failing_lookup bson_ObjectId
              (mk_oid unknown_patient_id) "timeout"
              eq_refl eq_refl eq_refl eq_refl) as [Hchecks [_ Hreply]].
  split; [exact Hchecks | exact (Hreply eq_refl)].
Defined.

Lemma serialize_doc_later_id_wins_witness :
  dict_wf (fields_before_id ++ ("_id", VObjectId (mk_oid unknown_patient_id))
                               :: fields_after_id)
  /\ dict_get "id"
       (serialize_doc (fields_before_id
                         ++ ("_id", VObjectId (mk_oid unknown_patient_id))
                              :: fields_after_id))
     = Some (VStr "own").
Proof.
  assert (Hwf : dict_wf (fields_before_id
                           ++ ("_id", VObjectId (mk_oid unknown_patient_id))
                                :: fields_after_id))
    by (unfold dict_wf; simpl; distinct_keys).
  split; [exact Hwf |].
  exact (proj2 (serialize_doc_later_id_wins fields_before_id fields_after_id
                  (VObjectId (mk_oid unknown_patient_id)) Hwf)).
Defined.

Lemma serialize_doc_datetime_identifier_witness :
  dict_get "id" (serialize_doc document_with_datetime_id)
  = Some (VStr "2024-05-01 09:30:00")
  /\ dict_get "seen" (serialize_doc document_with_datetime_id)
     = Some (VStr "2024-05-01T09:30:00").
Proof.
  assert (Hwf : dict_wf document_with_datetime_id)
    by (unfold dict_wf; simpl; distinct_keys).
  destruct (serialize_doc_datetime_identifier document_with_datetime_id
              sample_datetime Hwf eq_refl eq_refl) as [Hid [_ Hother]].
  split; [exact Hid |].
  apply (Hother "seen"); [discriminate | reflexivity].
Defined.

Lemma validated_appointment_duration_in_range_witness :
  validate_Appointment sample_coercions appointment_body = Valid appointment_of_body
  /\ (5 <= Appointment.duration_minutes appointment_of_body <= 240)%Z.
Proof.
  assert (Hvalid : validate_Appointment sample_coercions appointment_body
                   = Valid appointment_of_body) by reflexivity.
  split; [exact Hvalid |].
  exact (proj1 (validated_appointment_duration_in_range sample_coercions
                  appointment_body) appointment_of_body Hvalid).
Defined.

Lemma validated_appointment_fields_witness :
  Appointment.patient_id appointment_of_body = "patient-17"
  /\ Appointment.status appointment_of_body = "scheduled"
  /\ Appointment.reason appointment_of_body = None.
Proof.
  destruct (validated_appointment_fields sample_coercions appointment_body
              appointment_of_body eq_refl) as [Hpid [_ [Hstatus [_ Hreason]]]].
  split; [apply Hpid; reflexivity |].
  split; [apply Hstatus; reflexivity | apply Hreason; left; reflexivity].
Defined.

Lemma described_formats_are_not_enforced_witness :
  validate_Appointment sample_coercions
    (dict_set "status" (JString "whenever") appointment_body)
  = Valid (appointment_with_status "whenever" appointment_of_body).
Proof.
  exact (proj1 (described_formats_are_not_enforced sample_coercions appointment_body
                  "whenever") appointment_of_body eq_refl).
Defined.

Lemma required_fields_are_enough_witness :
  validate_Doctor selective_coercions doctor_body
  = Valid (Doctor.mk "John" "Snow" None None "Epidemiology" None).
Proof.
  apply (proj1 (proj2 (required_fields_are_enough selective_coercions doctor_body))).
  - reflexivity.
  - reflexivity.
  - reflexivity.
  - intros k Hin Hnot. unfold doctor_fields in Hin. simpl in Hin.
    destruct Hin as [<- | [<- | [<- | [<- | [<- | [<- | []]]]]]];
      try reflexivity; exfalso; apply Hnot; simpl; tauto.
Defined.

Lemma undeclared_fields_are_ignored_witness :
  validate_Doctor sample_coercions (dict_set "id" (JString "7") doctor_body)
  = validate_Doctor sample_coercions doctor_body.
Proof.
  apply (proj1 (proj2 (undeclared_fields_are_ignored sample_coercions doctor_body
                         "id" (JString "7")))).
  unfold doctor_fields. simpl. intuition discriminate.
Defined.

Lemma email_is_validated_witness :
  exists errs,
    post_patients selective_coercions patient_body_with_email empty_world
    = (mk_response 422 (CValidation errs), empty_world)
    /\ In ("email", "value_error") errs.
Proof.
  exact (proj1 (proj1 (email_is_validated selective_coercions patient_body_with_email
                         "not-an-address" eq_refl) eq_refl empty_world)).
Defined.

Lemma list_routes_serialize_every_document_witness :
  fst (list_doctors default_limit world_with_doctor)
  = Ok [ Doctor.model_dump sample_doctor ++ [("id", VStr stored_doctor_id)] ].
Proof.
  assert (Hin : In ("doctor", list_doctors)
                   [ ("patient", list_patients); ("doctor", list_doctors);
                     ("appointment", list_appointments) ])
    by (right; left; reflexivity).
  destruct (list_routes_serialize_every_document "doctor" list_doctors default_limit
              world_with_doctor Hin) as [Hok _].
  destruct (get_documents "doctor" [] default_limit world_with_doctor)
    as [[docs | e] w'] eqn:Hget; [| vm_compute in Hget; discriminate].
  destruct (Hok docs w' eq_refl) as [Hrun _].
  rewrite Hrun. vm_compute in Hget. inversion Hget. reflexivity.
Defined.

Lemma post_routes_status_codes_witness :
  status (fst (post_doctors sample_coercions doctor_body_without_department
                 empty_world)) <> 404%Z
  /\ (status (fst (post_doctors sample_coercions doctor_body_without_department
                     empty_world)) = 422%Z ->
      snd (post_doctors sample_coercions doctor_body_without_department empty_world)
      = empty_world).
Proof.
  assert (Hin : In (post_doctors sample_coercions doctor_body_without_department
                      empty_world)
                   [ post_patients sample_coercions doctor_body_without_department
                       empty_world;
                     post_doctors sample_coercions doctor_body_without_department
                       empty_world;
                     post_appointments sample_coercions doctor_body_without_department
                       empty_world ])
    by (right; left; reflexivity).
  destruct (post_routes_status_codes sample_coercions doctor_body_without_department
              empty_world _ Hin) as [_ [Hno Hsame]].
  split; [exact Hno | exact Hsame].
Defined.

Lemma test_database_always_answers_witness :
  exists r,
    test_database surroundings_failing_list empty_world = Ok r
    /\ diag_database_url r = Some "✅ Set"
    /\ diag_database_name r = Some "❌ Not Set".
Proof.
  destruct (test_database_always_answers surroundings_failing_list empty_world)
    as [r [Hr [_ [Hurl [_ [Hname _]]]]]].
  exists r. split; [exact Hr |]. split; [exact Hurl |].
  apply Hname. left. reflexivity.
Defined.


Lemma test_database_connection_report_witness :
  exists r,
    test_database surroundings_twelve_collections empty_world = Ok r
    /\ diag_database r = "✅ Connected & Working"
    /\ diag_collections r
       = ["c01"; "c02"; "c03"; "c04"; "c05"; "c06"; "c07"; "c08"; "c09"; "c10"].
Proof.
  destruct (proj2 (test_database_connection_report surroundings_twelve_collections
                     empty_world)
              empty_database (Some "hospital") _ eq_refl eq_refl eq_refl)
    as [r [Hr [Hdb [_ [Hcolls _]]]]].
  exists r. split; [exact Hr |]. split; [exact Hdb | exact Hcolls].
Defined.

Lemma stats_count_each_insert_witness :
  fst (get_stats (snd (create_appointment appointment_unknown_patient
                         world_with_doctor)))
  = Ok [("patients", VInt 0); ("doctors", VInt 1); ("appointments", VInt 1)].
Proof.
  exact (proj2 (proj2 (stats_count_each_insert world_with_doctor database_with_doctor
                         eq_refl eq_refl))
           appointment_unknown_patient eq_refl).
Defined.
